(** * The generic record mapper [API_Template] (template/template_api.py)

    A shallow embedding of the mapper class and of the objects it talks to,
    followed by the properties of its construction paths, its write
    projection, its persistence operations and its serialisation.

    Modelling conventions.
    - A Python [dict] is a [gmap] with string keys.  The loops of the class
      run over the items of the schema; their bodies touch one key per
      item, so the map they build does not depend on the iteration order.
    - An instance is its five fixed slots plus the attributes that
      [setattr] creates.  Field and column names of a schema range over
      the latter name space: they are taken to differ from the names of
      the slots, of the members of the class, and of the keyword parameters
      of the gateway's calls.  The slots [primary_key], [table] and [schema]
      hold what a concrete record type passes to [__init__], a name, a name
      and a dict; the [None] defaults of these parameters are not modelled.
    - The storage gateway (web.py's [web.db]) is a collaborator outside the
      repository.  It is a record of answers, each a function of the calls
      made so far, and every call is appended to a log.
    - Reading the clock is an input: the operations that stamp a timestamp
      take the value of [datetime.datetime.utcnow()] as an argument. *)

From stdpp Require Import gmap strings pretty list fin_maps.

Local Open Scope string_scope.

(** ** Values *)

(** The values that attributes and row cells hold.  A [Decimal] is kept as
    the text [str] gives for it and whether it is zero; a [datetime] as the
    text [str] gives for it. *)
Inductive val : Type :=
  | VNone
  | VBool (b : bool)
  | VInt (z : Z)
  | VStr (s : string)
  | VDecimal (zero : bool) (text : string)
  | VDatetime (text : string).

Global Instance val_eq_dec : EqDecision val.
Proof. solve_decision. Defined.

(** [bool(v)], the test of [if v:]. *)
Definition truthy (v : val) : bool :=
  match v with
  | VNone => false
  | VBool b => b
  | VInt z => negb (Z.eqb z 0)
  | VStr s => negb (String.eqb s "")
  | VDecimal zero _ => negb zero
  | VDatetime _ => true
  end.

(** [str(v)], also what ["%s" % v] renders. *)
Definition py_str (v : val) : string :=
  match v with
  | VNone => "None"
  | VBool true => "True"
  | VBool false => "False"
  | VInt z => pretty z
  | VStr s => s
  | VDecimal _ text => text
  | VDatetime text => text
  end.

(** A row of the storage gateway, and the keyword payload of a write. *)
Abbreviation row := (gmap string val).

(** [bool(d)] for a dict. *)
Definition truthy_row (r : row) : bool := negb (bool_decide (r = ∅)).

(** ** Exceptions and results *)

Inductive exc : Type :=
  | IndexError
  | TypeError
  | AttributeError
  | KeyError (key : string)
  | UnboundLocalError (name : string)
  | GatewayError (msg : string).

Global Instance exc_eq_dec : EqDecision exc.
Proof. solve_decision. Defined.

Inductive result (A : Type) : Type :=
  | OK (a : A)
  | Raise (e : exc).
Global Arguments OK {A} a.
Global Arguments Raise {A} e.

Global Instance result_ret : MRet result := @OK.
Global Instance result_bind : MBind result := λ A B f r,
  match r with
  | OK a => f a
  | Raise e => Raise e
  end.

(** ** The storage gateway *)

(** The calls the mapper makes on [web.db]. *)
Inductive event : Type :=
  | EvWhere (table : string) (cond : row)
  | EvSelect (table what : string)
  | EvInsert (table : string) (values : row)
  | EvUpdate (table where_ : string) (values : row)
  | EvDelete (table where_ : string)
  | EvTransaction
  | EvCommit
  | EvRollback.

(** What the gateway answers to a call, given the calls made before it. *)
Record Gateway : Type := {
  gw_where : list event → string → row → result (list row);
  gw_select : list event → string → string → result (list row);
  gw_insert : list event → string → row → result val;
  gw_update : list event → string → string → row → result val;
  gw_delete : list event → string → string → result val
}.

(** The log after one more call. *)
Definition logged (h : list event) (ev : event) : list event := (h ++ [ev])%list.

(** A computation that may call the gateway and may raise: it maps the log
    so far to its outcome and the extended log. *)
Definition M (A : Type) : Type := list event → result A * list event.

Global Instance M_ret : MRet M := λ A a h, (OK a, h).
Global Instance M_bind : MBind M := λ A B f m h,
  match m h with
  | (OK a, h') => f a h'
  | (Raise e, h') => (Raise e, h')
  end.

Definition raise {A} (e : exc) : M A := λ h, (Raise e, h).

Definition lift {A} (r : result A) : M A := λ h, (r, h).

Definition emit (ev : event) : M unit := λ h, (OK (), logged h ev).

(** [try: body except IndexError: handler]. *)
Definition except_IndexError {A} (body handler : M A) : M A := λ h,
  match body h with
  | (Raise IndexError, h') => handler h'
  | out => out
  end.

(** [try: body except Exception as e: handler(e) else: orelse(a)].  Every
    exception of [exc] derives from [Exception]. *)
Definition try_except_else {A B} (body : M A) (handler : exc → M B)
    (orelse : A → M B) : M B := λ h,
  match body h with
  | (OK a, h') => orelse a h'
  | (Raise e, h') => handler e h'
  end.

Definition db_where (db : Gateway) (table : string) (cond : row) : M (list row) :=
  λ h, (gw_where db h table cond, logged h (EvWhere table cond)).

Definition db_select (db : Gateway) (table what : string) : M (list row) :=
  λ h, (gw_select db h table what, logged h (EvSelect table what)).

Definition db_insert (db : Gateway) (table : string) (values : row) : M val :=
  λ h, (gw_insert db h table values, logged h (EvInsert table values)).

Definition db_update (db : Gateway) (table where_ : string) (values : row) : M val :=
  λ h, (gw_update db h table where_ values, logged h (EvUpdate table where_ values)).

Definition db_delete (db : Gateway) (table where_ : string) : M val :=
  λ h, (gw_delete db h table where_, logged h (EvDelete table where_)).

(** [with db.transaction(): body]: web.py commits when the block is left
    normally and rolls back when it is left by an exception, which then
    propagates. *)
Definition with_transaction {A} (body : M A) : M A := λ h,
  match body (logged h EvTransaction) with
  | (OK a, h') => (OK a, logged h' EvCommit)
  | (Raise e, h') => (Raise e, logged h' EvRollback)
  end.

(** [seq[0]]. *)
Definition first_item {A} (l : list A) : M A :=
  match l with
  | x :: _ => mret x
  | [] => raise IndexError
  end.

(** ** Instances and classes *)

(** The state of one mapper object: the slots [__init__] fills and the
    attributes created with [setattr]. *)
Record Instance : Type := {
  primary_key : string;
  schema : gmap string string;
  table : string;
  obj_id : val;
  _raw_data : option row;
  attributes : gmap string val
}.

(** The class-level descriptor of a concrete record type. *)
Record Class : Type := {
  DB : Gateway;
  SCHEMA : gmap string string;
  TABLE : string;
  PRIMARY_KEY : string
}.

(** The call [cls(obj_id, raw_data)] of a class method runs the constructor of
    the concrete class, which is where that class hands its descriptor to
    [__init__]; the class methods below take it as [new]. *)
Abbreviation Constructor := (val → option row → M Instance).

Definition set_obj_id (self : Instance) (v : val) : Instance :=
  {| primary_key := primary_key self; schema := schema self; table := table self;
     obj_id := v; _raw_data := _raw_data self; attributes := attributes self |}.

Definition set_raw_data (self : Instance) (r : option row) : Instance :=
  {| primary_key := primary_key self; schema := schema self; table := table self;
     obj_id := obj_id self; _raw_data := r; attributes := attributes self |}.

Definition with_attributes (self : Instance) (a : gmap string val) : Instance :=
  {| primary_key := primary_key self; schema := schema self; table := table self;
     obj_id := obj_id self; _raw_data := _raw_data self; attributes := a |}.

(** [setattr(self, name, v)]. *)
Definition setattr (self : Instance) (name : string) (v : val) : Instance :=
  with_attributes self (<[name := v]> (attributes self)).

(** [getattr(self, name, dflt)]. *)
Definition getattr (self : Instance) (name : string) (dflt : val) : val :=
  default dflt (attributes self !! name).

(** ** The methods of [API_Template] *)

(** The extension hook: it hands its argument back and leaves [self] alone. *)
Definition _inject_custom_keys (self : Instance) (obj : option row) : option row := obj.

(** The validation hook: [pass]. *)
Definition _validate (self : Instance) : result unit := OK ().

(** One turn of the loop of [_set_data]: [if db_key in raw_data:
    setattr(self, key, raw_data[db_key])].  With [raw_data] being [None] the
    membership test raises. *)
Definition _set_data_item (raw_data : option row) (key db_key : string)
    (acc : result Instance) : result Instance :=
  self ← acc;
  match raw_data with
  | None => Raise TypeError
  | Some r =>
      match r !! db_key with
      | Some v => OK (setattr self key v)
      | None => OK self
      end
  end.

Definition _set_data (self : Instance) (raw_data : option row) : result Instance :=
  self' ← map_fold (_set_data_item raw_data) (OK self) (schema self);
  let _ := _inject_custom_keys self' raw_data in
  OK self'.

Definition _construct_obj_from_defaults (self : Instance) : Instance :=
  let self' := map_fold (λ key db_field acc, setattr acc key VNone) self (schema self) in
  let _ := _inject_custom_keys self' None in
  self'.

Definition _construct_obj_from_data (self : Instance) : result Instance :=
  match _raw_data self with
  | None => Raise TypeError
  | Some r =>
      let self' :=
        match r !! primary_key self with
        | Some v => set_obj_id self v
        | None => set_obj_id self VNone
        end in
      _set_data self' (_raw_data self')
  end.

Definition _get_query (cls : Class) (obj_id : val) (kw_db : option Gateway) : M (option row) :=
  let db := default (DB cls) kw_db in
  let where_ : row := {[ PRIMARY_KEY cls := obj_id ]} in
  except_IndexError
    (rows ← db_where db (TABLE cls) where_;
     obj ← first_item rows;
     mret (Some obj))
    (mret None).

Definition _construct_obj_from_id (cls : Class) (self : Instance) : M Instance :=
  raw ← _get_query cls (obj_id self) (Some (DB cls));
  let self' := set_raw_data self raw in
  lift (_set_data self' (_raw_data self')).

Definition _construct_obj (cls : Class) (self : Instance) : M Instance :=
  if truthy (obj_id self) then _construct_obj_from_id cls self
  else if from_option truthy_row false (_raw_data self) then lift (_construct_obj_from_data self)
  else mret (_construct_obj_from_defaults self).

(** [__init__]: the [db] argument is accepted and never used. *)
Definition __init__ (cls : Class) (obj_id : val) (raw_data : option row)
    (primary_key : string) (table : string) (schema : gmap string string) : M Instance :=
  _construct_obj cls
    {| primary_key := primary_key; schema := schema; table := table;
       obj_id := obj_id; _raw_data := raw_data; attributes := ∅ |}.

(** [del attrs[key]]. *)
Definition del_item (key : string) (attrs : row) : result row :=
  match attrs !! key with
  | Some _ => OK (delete key attrs)
  | None => Raise (KeyError key)
  end.

(** One turn of the first loop of [_clean_keys]: the value is read from the
    attribute named by the storage column and stored under the field name. *)
Definition _clean_keys_item (self : Instance) (skey db_key : string) (attrs : row) : row :=
  let val := getattr self db_key VNone in
  if truthy val then <[skey := val]> attrs else attrs.

(** [_clean_keys(db_operation, safe)]; its third parameter [JSON] is never
    read.  [now] is [datetime.datetime.utcnow()].  The local [timestamp] is
    bound only inside the [created] branch, so the [modified] branch finds it
    unbound when that branch did not run. *)
Definition _clean_keys (self : Instance) (db_operation safe : bool) (now : val) : result row :=
  let attrs := map_fold (_clean_keys_item self) ∅ (schema self) in
  let attrs :=
    if db_operation && bool_decide (is_Some (attrs !! primary_key self))
    then delete (primary_key self) attrs else attrs in
  let '(timestamp, attrs) :=
    match schema self !! "created" with
    | Some created =>
        let timestamp := py_str now in
        (Some timestamp, <[created := VStr timestamp]> attrs)
    | None => (None, attrs)
    end in
  attrs ←
    match schema self !! "modified" with
    | Some modified =>
        match timestamp with
        | Some timestamp => OK (<[modified := VStr timestamp]> attrs)
        | None => Raise (UnboundLocalError "timestamp")
        end
    | None => OK attrs
    end;
  attrs ←
    (if safe && bool_decide (is_Some (schema self !! "password"))
     then attrs ← del_item "password" attrs; del_item "salt" attrs
     else OK attrs);
  OK attrs.

Definition _json_serializable_item (self : Instance) (safe : bool)
    (key db_key : string) (attrs : row) : row :=
  let val := getattr self db_key VNone in
  if truthy val then
    if negb safe || (safe && negb (String.eqb key "password" || String.eqb key "salt"))
    then <[key := VStr (py_str val)]> attrs
    else attrs
  else attrs.

Definition _json_serializable (self : Instance) (safe : bool) : row :=
  map_fold (_json_serializable_item self safe) ∅ (schema self).

(** [update]: both ways out of the [with] block leave it normally, so the
    transaction is committed before either [return]. *)
Definition update (cls : Class) (self : Instance) (now : val) : M val :=
  _ ← lift (_validate self);
  let pkey := getattr self (primary_key self) VNone in
  if truthy pkey then
    attrs ← lift (_clean_keys self true false now);
    let where_ := primary_key self +:+ "=" +:+ py_str pkey in
    updated ← with_transaction (db_update (DB cls) (table self) where_ attrs);
    if truthy updated then mret (VStr (primary_key self)) else mret VNone
  else mret VNone.

(** [insert] returns the value it hands back and the instance it leaves. *)
Definition insert (cls : Class) (self : Instance) (now : val) : M (val * Instance) :=
  _ ← lift (_validate self);
  let pkey := getattr self (primary_key self) VNone in
  if negb (truthy pkey) then
    attrs ← lift (_clean_keys self true false now);
    _ ← emit EvTransaction;
    try_except_else
      (db_insert (DB cls) (table self) attrs)
      (λ e, _ ← emit EvRollback; raise e)
      (λ entry_id,
         _ ← emit EvCommit;
         mret (entry_id, setattr self (primary_key self) entry_id))
  else mret (VBool false, self).

Definition delete_ (cls : Class) (self : Instance) : M val :=
  db_delete (DB cls) (table self) (primary_key self +:+ "=" +:+ py_str (obj_id self)).

Definition construct (new : Constructor) (cls_data : option row) : M Instance :=
  new VNone cls_data.

Definition get_by (cls : Class) (new : Constructor) (attribute : string) (value : val)
    (kw_db : option Gateway) : M (option Instance) :=
  let db := default (DB cls) kw_db in
  match SCHEMA cls !! attribute with
  | None => raise (KeyError attribute)
  | Some column =>
      let where_ : row := {[ column := value ]} in
      found ← except_IndexError
        (rows ← db_where db (TABLE cls) where_;
         obj ← first_item rows;
         mret (Some obj))
        (mret None);
      match found with
      | None => mret None
      | Some obj => inst ← new VNone (Some obj); mret (Some inst)
      end
  end.

Definition get_where (cls : Class) (new : Constructor) (attribute : string)
    (value : val) : M (option Instance) :=
  get_by cls new attribute value None.

Definition get (cls : Class) (obj_id : val) (kw_db : option Gateway) : M (option row) :=
  _get_query cls obj_id kw_db.

Definition _get_all_query (cls : Class) (kw_db : option Gateway)
    (kw_what : option string) : M (list row) :=
  let db := default (DB cls) kw_db in
  let what := default "*" kw_what in
  db_select db (TABLE cls) what.

(** [list(map(f, seq))] for an [f] with effects. *)
Fixpoint map_M {A B} (f : A → M B) (l : list A) : M (list B) :=
  match l with
  | [] => mret []
  | x :: l' => y ← f x; ys ← map_M f l'; mret (y :: ys)
  end.

Definition get_all (cls : Class) (new : Constructor) (kw_db : option Gateway)
    (kw_what : option string) : M (list Instance) :=
  rows ← _get_all_query cls kw_db kw_what;
  map_M (λ r, construct new (Some r)) rows.

Definition exists_ (cls : Class) (obj_id : val) (kw_db : option Gateway) : M (option row) :=
  except_IndexError (get cls obj_id kw_db) (mret None).

Definition is_databased (self : Instance) : val :=
  let pkey := getattr self (primary_key self) (VBool false) in
  if negb (truthy pkey) then VBool false else pkey.

(** [convert_attr2json]: values whose type is [Decimal] or [datetime] are
    rendered as text, the others pass through. *)
Definition convert_attr2json (k : string) (v : val) : string * val :=
  match v with
  | VDecimal _ _ | VDatetime _ => (k, VStr (py_str v))
  | _ => (k, v)
  end.

Definition json_serializable (self : Instance) (now : val) : result row :=
  attrs ← _clean_keys self false false now;
  OK (list_to_map (uncurry convert_attr2json <$> map_to_list attrs)).

(** ** Auxiliary definitions for the statements *)

(** What a field contributes to the first loop of [_clean_keys]. *)
Definition kept (self : Instance) (column : string) : option val :=
  let v := getattr self column VNone in if truthy v then Some v else None.

(** The projection before the timestamps: the kept fields, without the
    primary key for a database operation. *)
Definition projected (self : Instance) (db_operation : bool) : row :=
  let attrs := omap (kept self) (schema self) in
  if db_operation && bool_decide (is_Some (attrs !! primary_key self))
  then delete (primary_key self) attrs else attrs.

(** [attrs[column] = timestamp] for a field the schema may or may not have. *)
Definition stamped (column : option string) (timestamp : string) (attrs : row) : row :=
  match column with
  | Some c => <[c := VStr timestamp]> attrs
  | None => attrs
  end.


(** What a field contributes to [_json_serializable]. *)
Definition rendered (self : Instance) (safe : bool) (key column : string) : option val :=
  let v := getattr self column VNone in
  if truthy v && (negb safe || negb (String.eqb key "password" || String.eqb key "salt"))
  then Some (VStr (py_str v)) else None.

(** The value part of [convert_attr2json]. *)
Definition json_value (v : val) : val := (convert_attr2json "" v).2.

(** ** Sample data, after the scenarios of the specification *)

Definition noon : val := VDatetime "2014-03-01 12:00:00.000000".

(** A gateway that gives the same answers whatever was called before. *)
Definition fixed_gateway (rows : list row) (inserted updated : result val) : Gateway :=
  {| gw_where := λ _ _ _, OK rows;
     gw_select := λ _ _ _, OK rows;
     gw_insert := λ _ _ _, inserted;
     gw_update := λ _ _ _ _, updated;
     gw_delete := λ _ _ _, OK (VInt 1) |}.

(** An instance over [schema] with the given attributes. *)
Definition instance_of (schema : gmap string string) (attributes : gmap string val) : Instance :=
  {| primary_key := "id"; schema := schema; table := "users";
     obj_id := VNone; _raw_data := None; attributes := attributes |}.

(** The record type of Scenarios A to C. *)
Definition users_schema : gmap string string :=
  {[ "id" := "id"; "name" := "name"; "created" := "created_at" ]}.

Definition users (db : Gateway) : Class :=
  {| DB := db; SCHEMA := users_schema; TABLE := "users"; PRIMARY_KEY := "id" |}.

(** Its constructor, which forwards the descriptor. *)
Definition User (db : Gateway) : Constructor := λ obj_id raw_data,
  __init__ (users db) obj_id raw_data "id" "users" users_schema.

(** Scenario A after [name] was set, and Scenario B before its [update]. *)
Definition ada : Instance :=
  instance_of users_schema {[ "id" := VNone; "name" := VStr "Ada"; "created" := VNone ]}.
Definition ada7 : Instance :=
  instance_of users_schema {[ "id" := VInt 7; "name" := VStr "Ada Lovelace"; "created" := VNone ]}.

(** The rows of the users whose identifiers are [0] and [7]. *)
Definition row0 : row := {[ "id" := VInt 0; "name" := VStr "Ada" ]}.
Definition row7 : row := {[ "id" := VInt 7; "name" := VStr "Ada" ]}.

(** A record type with credentials, stored under the names of its fields. *)
Definition accounts_schema : gmap string string :=
  {[ "id" := "id"; "email" := "email"; "password" := "password"; "salt" := "salt";
     "created" := "created" ]}.

(** An account with both credentials set, and one without a salt. *)
Definition account : Instance :=
  instance_of accounts_schema
    {[ "email" := VStr "ada@example.org"; "password" := VStr "5f4dcc3b"; "salt" := VStr "x9" ]}.
Definition account_without_salt : Instance :=
  instance_of accounts_schema
    {[ "email" := VStr "ada@example.org"; "password" := VStr "5f4dcc3b" ]}.

(** A schema that declares [modified] and not [created], and an instance
    of it that has no password. *)
Definition logins_schema : gmap string string :=
  {[ "id" := "id"; "password" := "password"; "modified" := "modified" ]}.
Definition login : Instance := instance_of logins_schema {[ "id" := VInt 3 ]}.

(** A schema whose field [name] is stored in the column [full_name]. *)
Definition people_schema : gmap string string :=
  {[ "id" := "id"; "name" := "full_name" ]}.


(** ** Sample data for the further properties *)

(** The constructor of a record type that forwards a descriptor to
    [__init__]. *)
Definition forwarding (cls : Class) (primary_key table : string)
    (schema : gmap string string) : Constructor := λ obj_id raw_data,
  __init__ cls obj_id raw_data primary_key table schema.

(** The record type of [people_schema] and a row of its table. *)
Definition people (db : Gateway) : Class :=
  {| DB := db; SCHEMA := people_schema; TABLE := "people"; PRIMARY_KEY := "id" |}.
Definition person_row : row := {[ "id" := VInt 7; "full_name" := VStr "Ada" ]}.

(** A schema that stores the primary key in the column [user_id], and a row
    of its table. *)
Definition members_schema : gmap string string :=
  {[ "id" := "user_id"; "name" := "name" ]}.
Definition member_row : row := {[ "user_id" := VInt 7; "name" := VStr "Ada" ]}.

(** * Properties *)

(** ** The loops over the schema *)

Lemma clean_loop_lookup (self : Instance) (sch : gmap string string) (k : string) :
  map_fold (_clean_keys_item self) ∅ sch !! k = sch !! k ≫= kept self.
Proof.
  apply (map_fold_weak_ind (λ (r : row) (m : gmap string string),
    r !! k = m !! k ≫= kept self)).
  - by rewrite !lookup_empty.
  - intros i x m r Hi IH. unfold _clean_keys_item, kept in *.
    destruct (decide (i = k)) as [->|Hne].
    + rewrite lookup_insert_eq. simpl.
      destruct (truthy (getattr self x VNone)) eqn:E.
      * by rewrite lookup_insert_eq.
      * by rewrite IH, Hi.
    + rewrite lookup_insert_ne by done.
      destruct (truthy (getattr self x VNone)); [rewrite lookup_insert_ne by done|]; done.
Qed.

Lemma clean_loop_omap (self : Instance) :
  map_fold (_clean_keys_item self) ∅ (schema self) = omap (kept self) (schema self).
Proof. apply map_eq; intros k. by rewrite clean_loop_lookup, lookup_omap. Qed.

Lemma json_item_rendered (self : Instance) (safe : bool) (key column : string) (attrs : row) :
  _json_serializable_item self safe key column attrs =
    match rendered self safe key column with
    | Some v => <[key := v]> attrs
    | None => attrs
    end.
Proof.
  unfold _json_serializable_item, rendered.
  destruct (truthy (getattr self column VNone)), safe,
    (String.eqb key "password"), (String.eqb key "salt"); reflexivity.
Qed.

Lemma json_serializable_lookup (self : Instance) (safe : bool) (k : string) :
  _json_serializable self safe !! k = schema self !! k ≫= rendered self safe k.
Proof.
  unfold _json_serializable.
  apply (map_fold_weak_ind (λ (r : row) (m : gmap string string),
    r !! k = m !! k ≫= rendered self safe k)).
  - by rewrite !lookup_empty.
  - intros i x m r Hi IH. rewrite json_item_rendered.
    destruct (decide (i = k)) as [->|Hne].
    + rewrite lookup_insert_eq. simpl.
      destruct (rendered self safe k x).
      * by rewrite lookup_insert_eq.
      * by rewrite IH, Hi.
    + rewrite lookup_insert_ne by done.
      destruct (rendered self safe i x); [rewrite lookup_insert_ne by done|]; done.
Qed.

(** [_set_data] on a row: every field whose column the row has is set, under
    the field's name, and nothing else changes. *)
Lemma _set_data_Some (self : Instance) (r : row) :
  _set_data self (Some r) =
    OK (with_attributes self (omap (λ column, r !! column) (schema self) ∪ attributes self)).
Proof.
  unfold _set_data.
  assert (∃ a, map_fold (_set_data_item (Some r)) (OK self) (schema self)
                 = OK (with_attributes self a)
               ∧ ∀ k, a !! k = union_with (λ x _, Some x)
                                 (schema self !! k ≫= (λ column, r !! column))
                                 (attributes self !! k)) as (a & -> & Ha).
  { apply (map_fold_weak_ind (λ (res : result Instance) (m : gmap string string),
      ∃ a, res = OK (with_attributes self a)
           ∧ ∀ k, a !! k = union_with (λ x _, Some x)
                             (m !! k ≫= (λ column, r !! column)) (attributes self !! k))).
    - exists (attributes self). split; [by destruct self|].
      intros k. rewrite lookup_empty. simpl. by destruct (attributes self !! k).
    - intros i x m res Hi (a & -> & Ha). simpl.
      destruct (r !! x) as [v|] eqn:Hx.
      + exists (<[i := v]> a). split; [done|]. intros k.
        destruct (decide (i = k)) as [->|Hne].
        * rewrite !lookup_insert_eq. simpl. rewrite Hx.
          by destruct (attributes self !! k).
        * rewrite !lookup_insert_ne by done. apply Ha.
      + exists a. split; [done|]. intros k.
        destruct (decide (i = k)) as [->|Hne].
        * rewrite lookup_insert_eq. simpl. rewrite Hx, Ha, Hi. done.
        * rewrite lookup_insert_ne by done. apply Ha. }
  simpl. do 2 f_equal. apply map_eq; intros k.
  by rewrite Ha, lookup_union, lookup_omap.
Qed.

(** [_set_data] on [None]: the first membership test raises, so only an
    empty schema gets through. *)
Lemma _set_data_None (self : Instance) :
  _set_data self None = if decide (schema self = ∅) then OK self else Raise TypeError.
Proof.
  unfold _set_data.
  assert ((schema self = ∅ →
             map_fold (_set_data_item None) (OK self) (schema self) = OK self)
          ∧ (schema self ≠ ∅ →
             map_fold (_set_data_item None) (OK self) (schema self) = Raise TypeError))
    as [Hempty Hitems].
  { apply (map_fold_weak_ind (λ (res : result Instance) (m : gmap string string),
      (m = ∅ → res = OK self) ∧ (m ≠ ∅ → res = Raise TypeError))).
    - split; [done|congruence].
    - intros i x m res Hi [He Hne]. split.
      + intros Habs. by apply insert_non_empty in Habs.
      + intros _. unfold _set_data_item.
        destruct (decide (m = ∅)) as [Hm|Hm]; [by rewrite He|by rewrite Hne]. }
  destruct (decide (schema self = ∅)) as [E|E].
  - by rewrite Hempty.
  - by rewrite Hitems.
Qed.

Lemma _construct_obj_from_defaults_eq (self : Instance) :
  _construct_obj_from_defaults self =
    with_attributes self (((λ _, VNone) <$> schema self) ∪ attributes self).
Proof.
  unfold _construct_obj_from_defaults. simpl.
  assert (∃ a, map_fold (λ key (_ : string) acc, setattr acc key VNone) self (schema self)
                 = with_attributes self a
               ∧ ∀ k, a !! k = union_with (λ x _, Some x)
                                 ((λ _, VNone) <$> schema self !! k)
                                 (attributes self !! k)) as (a & -> & Ha).
  { apply (map_fold_weak_ind (λ (res : Instance) (m : gmap string string),
      ∃ a, res = with_attributes self a
           ∧ ∀ k, a !! k = union_with (λ x _, Some x)
                             ((λ _, VNone) <$> m !! k) (attributes self !! k))).
    - exists (attributes self). split; [by destruct self|].
      intros k. rewrite lookup_empty. simpl. by destruct (attributes self !! k).
    - intros i x m res Hi (a & -> & Ha).
      exists (<[i := VNone]> a). split; [done|]. intros k.
      destruct (decide (i = k)) as [->|Hne].
      + rewrite !lookup_insert_eq. simpl. by destruct (attributes self !! k).
      + rewrite !lookup_insert_ne by done. apply Ha. }
  f_equal. apply map_eq; intros k.
  by rewrite Ha, lookup_union, lookup_fmap.
Qed.

(** ** Persistence: what [insert] and [update] do, case by case *)

Lemma insert_has_identifier (cls : Class) (self : Instance) (now : val) (h : list event) :
  truthy (getattr self (primary_key self) VNone) = true →
  insert cls self now h = (OK (VBool false, self), h).
Proof. intros Hid. unfold insert. simpl. by rewrite Hid. Qed.

Lemma insert_no_identifier (cls : Class) (self : Instance) (now : val) (h : list event)
    (attrs : row) :
  truthy (getattr self (primary_key self) VNone) = false →
  _clean_keys self true false now = OK attrs →
  insert cls self now h =
    match gw_insert (DB cls) (logged h EvTransaction) (table self) attrs with
    | OK entry_id =>
        (OK (entry_id, setattr self (primary_key self) entry_id),
         (h ++ [EvTransaction; EvInsert (table self) attrs; EvCommit])%list)
    | Raise e =>
        (Raise e, (h ++ [EvTransaction; EvInsert (table self) attrs; EvRollback])%list)
    end.
Proof.
  intros Hid Hattrs. unfold insert. simpl. rewrite Hid. simpl.
  unfold mbind, M_bind, lift. rewrite Hattrs. simpl.
  unfold try_except_else, db_insert, emit, raise, mret, M_ret, logged.
  destruct (gw_insert _ _ _ _); simpl; by rewrite <- !(assoc_L (++)).
Qed.

Lemma update_no_identifier (cls : Class) (self : Instance) (now : val) (h : list event) :
  truthy (getattr self (primary_key self) VNone) = false →
  update cls self now h = (OK VNone, h).
Proof. intros Hid. unfold update. simpl. by rewrite Hid. Qed.

Lemma update_has_identifier (cls : Class) (self : Instance) (now : val) (h : list event)
    (attrs : row) :
  truthy (getattr self (primary_key self) VNone) = true →
  _clean_keys self true false now = OK attrs →
  let where_ := primary_key self +:+ "=" +:+ py_str (getattr self (primary_key self) VNone) in
  update cls self now h =
    match gw_update (DB cls) (logged h EvTransaction) (table self) where_ attrs with
    | OK updated =>
        (OK (if truthy updated then VStr (primary_key self) else VNone),
         (h ++ [EvTransaction; EvUpdate (table self) where_ attrs; EvCommit])%list)
    | Raise e =>
        (Raise e, (h ++ [EvTransaction; EvUpdate (table self) where_ attrs; EvRollback])%list)
    end.
Proof.
  intros Hid Hattrs where_. unfold update. simpl. rewrite Hid. simpl.
  unfold mbind, M_bind, lift. rewrite Hattrs. simpl.
  unfold with_transaction, db_update, logged. fold where_.
  destruct (gw_update _ _ _ _ _) as [u|e]; simpl; rewrite <- !(assoc_L (++)); simpl.
  - by destruct (truthy u).
  - done.
Qed.

(** ** Construction by an identifier that matches no row *)

Lemma _get_query_not_found (cls : Class) (obj_id : val) (kw_db : option Gateway)
    (h : list event) :
  gw_where (default (DB cls) kw_db) h (TABLE cls) {[ PRIMARY_KEY cls := obj_id ]} = OK [] →
  _get_query cls obj_id kw_db h =
    (OK None, logged h (EvWhere (TABLE cls) {[ PRIMARY_KEY cls := obj_id ]})).
Proof.
  intros Hrows. unfold _get_query, except_IndexError, db_where. simpl.
  unfold mbind, M_bind. by rewrite Hrows.
Qed.

Lemma _get_query_found (cls : Class) (obj_id : val) (kw_db : option Gateway)
    (h : list event) (r : row) (rest : list row) :
  gw_where (default (DB cls) kw_db) h (TABLE cls) {[ PRIMARY_KEY cls := obj_id ]}
    = OK (r :: rest) →
  _get_query cls obj_id kw_db h =
    (OK (Some r), logged h (EvWhere (TABLE cls) {[ PRIMARY_KEY cls := obj_id ]})).
Proof.
  intros Hrows. unfold _get_query, except_IndexError, db_where. simpl.
  unfold mbind, M_bind. by rewrite Hrows.
Qed.

(** Whatever the class, a by-identifier construction whose fetch finds no
    row ends in the [TypeError] of [_set_data], unless the schema is empty. *)
Lemma __init___by_id_not_found (cls : Class) (obj_id : val) (raw_data : option row)
    (primary_key table : string) (schema : gmap string string) (h : list event) :
  truthy obj_id = true →
  gw_where (DB cls) h (TABLE cls) {[ PRIMARY_KEY cls := obj_id ]} = OK [] →
  schema ≠ ∅ →
  __init__ cls obj_id raw_data primary_key table schema h =
    (Raise TypeError, logged h (EvWhere (TABLE cls) {[ PRIMARY_KEY cls := obj_id ]})).
Proof.
  intros Hid Hrows Hsch. unfold __init__, _construct_obj. simpl. rewrite Hid.
  unfold _construct_obj_from_id. simpl. unfold mbind at 1, M_bind at 1.
  rewrite _get_query_not_found by done. unfold lift.
  rewrite _set_data_None. simpl. by rewrite decide_False.
Qed.

(** C1: constructing by an identifier that matches no row does not come back
    with an empty result: the fetch is softened to [None], and [_set_data]
    then raises [TypeError] on the first field of the schema.  Here on the
    schema of Scenario A, identifier [1], and a gateway without rows. *)
Theorem construct_by_unknown_id_raises :
  __init__ (users (fixed_gateway [] (OK (VInt 7)) (OK (VInt 1))))
      (VInt 1) None "id" "users" users_schema []
    = (Raise TypeError, [EvWhere "users" {[ "id" := VInt 1 ]}]).
Proof. by apply __init___by_id_not_found. Qed.

(** ** The write projection *)

(** C2: with a [created] field in the schema, the projection that [insert]
    and [update] send ([db_operation] set, [safe] not) returns, and holds the
    text of the current UTC time under the storage column of [created]; it
    does so whatever the attributes are, hence on update as on insert.  The
    storage column of [modified], when the schema has that field too, holds
    the same text.  Both writes hand this projection to the gateway. *)
Theorem clean_keys_stamps_created (cls : Class) (self : Instance) (now : val)
    (created : string) :
  schema self !! "created" = Some created →
  ∃ attrs : row,
    _clean_keys self true false now = OK attrs
    ∧ attrs !! created = Some (VStr (py_str now))
    ∧ (∀ modified, schema self !! "modified" = Some modified →
         attrs !! modified = Some (VStr (py_str now)))
    ∧ (∀ h, truthy (getattr self (primary_key self) VNone) = false →
         ∃ out closing, insert cls self now h =
           (out, (h ++ [EvTransaction; EvInsert (table self) attrs; closing])%list))
    ∧ (∀ h, truthy (getattr self (primary_key self) VNone) = true →
         ∃ out where_ closing, update cls self now h =
           (out, (h ++ [EvTransaction; EvUpdate (table self) where_ attrs; closing])%list)).
Proof.
  intros Hcreated.
  assert (∃ attrs : row, _clean_keys self true false now = OK attrs
            ∧ attrs !! created = Some (VStr (py_str now))
            ∧ (∀ modified, schema self !! "modified" = Some modified →
                 attrs !! modified = Some (VStr (py_str now))))
    as (attrs & Hattrs & Hc & Hm).
  { unfold _clean_keys. rewrite Hcreated. cbn zeta beta iota.
    destruct (schema self !! "modified") as [modified|] eqn:Hmod; simpl.
    - eexists. split; [done|]. split.
      + destruct (decide (modified = created)) as [->|Hne].
        * by rewrite lookup_insert_eq.
        * rewrite lookup_insert_ne by done. by rewrite lookup_insert_eq.
      + intros ? [= <-]. by rewrite lookup_insert_eq.
    - eexists. split; [done|]. split; [by rewrite lookup_insert_eq|done]. }
  exists attrs. repeat split; try done.
  - intros h Hid. rewrite (insert_no_identifier _ _ _ _ attrs) by done.
    destruct (gw_insert _ _ _ _) as [entry_id|e].
    + by eexists _, EvCommit.
    + by eexists _, EvRollback.
  - intros h Hid. rewrite (update_has_identifier _ _ _ _ attrs) by done.
    destruct (gw_update _ _ _ _ _) as [u|e].
    + by eexists _, _, EvCommit.
    + by eexists _, _, EvRollback.
Qed.

Lemma clean_keys_stamps_created_witness :
  schema ada !! "created" = Some "created_at"
  ∧ ∃ attrs : row,
      _clean_keys ada true false noon = OK attrs
      ∧ attrs !! "created_at" = Some (VStr "2014-03-01 12:00:00.000000").
Proof.
  split; [reflexivity|].
  destruct (clean_keys_stamps_created (users (fixed_gateway [] (OK (VInt 7)) (OK (VInt 1))))
              ada noon "created_at" eq_refl) as (attrs & Hattrs & Hcreated & _).
  exists attrs. split; [exact Hattrs | exact Hcreated].
Defined.

(** ** [update] *)

(** C3: a successful [update] hands back [self.primary_key], the name of the
    primary-key field, where [insert] hands back the identifier itself.
    Scenario B: the instance holds identifier [7] under the field [id], the
    gateway reports one row updated, and the caller receives the text [id]. *)
Theorem update_returns_key_name :
  getattr ada7 (primary_key ada7) VNone = VInt 7
  ∧ update (users (fixed_gateway [] (OK (VInt 7)) (OK (VInt 1)))) ada7 noon []
    = (OK (VStr "id"),
       [EvTransaction;
        EvUpdate "users" "id=7"
          {[ "name" := VStr "Ada Lovelace";
             "created_at" := VStr "2014-03-01 12:00:00.000000" ]};
        EvCommit]).
Proof. split; [reflexivity | by vm_compute]. Qed.

(** The other half of the sentence holds: when the gateway reports no row
    updated the caller receives [None]. *)
Lemma update_no_row_updated (cls : Class) (self : Instance) (now : val) (h : list event)
    (attrs : row) (updated : val) :
  truthy (getattr self (primary_key self) VNone) = true →
  _clean_keys self true false now = OK attrs →
  gw_update (DB cls) (logged h EvTransaction) (table self)
    (primary_key self +:+ "=" +:+ py_str (getattr self (primary_key self) VNone)) attrs
    = OK updated →
  truthy updated = false →
  (update cls self now h).1 = OK VNone.
Proof.
  intros Hid Hattrs Hgw Hfalse.
  rewrite (update_has_identifier _ _ _ _ attrs) by done.
  cbn zeta. rewrite Hgw, Hfalse. done.
Qed.

(** In general the success value is the field name. *)
Lemma update_row_updated (cls : Class) (self : Instance) (now : val) (h : list event)
    (attrs : row) (updated : val) :
  truthy (getattr self (primary_key self) VNone) = true →
  _clean_keys self true false now = OK attrs →
  gw_update (DB cls) (logged h EvTransaction) (table self)
    (primary_key self +:+ "=" +:+ py_str (getattr self (primary_key self) VNone)) attrs
    = OK updated →
  truthy updated = true →
  (update cls self now h).1 = OK (VStr (primary_key self)).
Proof.
  intros Hid Hattrs Hgw Htrue.
  rewrite (update_has_identifier _ _ _ _ attrs) by done.
  cbn zeta. rewrite Hgw, Htrue. done.
Qed.

(** ** [insert] *)

Lemma insert_projection_raises (cls : Class) (self : Instance) (now : val)
    (h : list event) (e : exc) :
  truthy (getattr self (primary_key self) VNone) = false →
  _clean_keys self true false now = Raise e →
  insert cls self now h = (Raise e, h).
Proof.
  intros Hid Hattrs. unfold insert. simpl. rewrite Hid. simpl.
  unfold mbind, M_bind, lift. by rewrite Hattrs.
Qed.

(** C4, as stated, fails when the gateway hands back a falsy identifier
    (MySQL's [0] for a table without an auto-increment column): the instance
    of Scenario A then still counts as having no identifier, and a second
    [insert] goes to the gateway again. *)
Lemma insert_twice_falsy_identifier :
  truthy (getattr ada (primary_key ada) VNone) = false
  ∧ insert (users (fixed_gateway [] (OK (VInt 0)) (OK (VInt 1)))) ada noon []
    = (OK (VInt 0, setattr ada "id" (VInt 0)),
       [EvTransaction;
        EvInsert "users" {[ "name" := VStr "Ada";
                            "created_at" := VStr "2014-03-01 12:00:00.000000" ]};
        EvCommit])
  ∧ insert (users (fixed_gateway [] (OK (VInt 0)) (OK (VInt 1))))
      (setattr ada "id" (VInt 0)) noon
      [EvTransaction;
       EvInsert "users" {[ "name" := VStr "Ada";
                           "created_at" := VStr "2014-03-01 12:00:00.000000" ]};
       EvCommit]
    = (OK (VInt 0, setattr ada "id" (VInt 0)),
       [EvTransaction;
        EvInsert "users" {[ "name" := VStr "Ada";
                            "created_at" := VStr "2014-03-01 12:00:00.000000" ]};
        EvCommit;
        EvTransaction;
        EvInsert "users" {[ "name" := VStr "Ada";
                            "created_at" := VStr "2014-03-01 12:00:00.000000" ]};
        EvCommit]).
Proof. repeat split; by vm_compute. Qed.

(** C4, amended: on an instance without identifier, an [insert] that
    succeeds returns what the gateway's insert answered and leaves it in the
    primary-key attribute; when that identifier is truthy, a further [insert]
    on the instance returns [False] and leaves the log of gateway calls as it
    was. *)
Theorem insert_assigns_identifier (cls : Class) (self self' : Instance) (now : val)
    (h h' : list event) (ret : val) :
  truthy (getattr self (primary_key self) VNone) = false →
  insert cls self now h = (OK (ret, self'), h') →
  (∃ attrs : row,
     _clean_keys self true false now = OK attrs
     ∧ gw_insert (DB cls) (logged h EvTransaction) (table self) attrs = OK ret
     ∧ h' = (h ++ [EvTransaction; EvInsert (table self) attrs; EvCommit])%list)
  ∧ getattr self' (primary_key self') VNone = ret
  ∧ (truthy ret = true →
     ∀ now', insert cls self' now' h' = (OK (VBool false, self'), h')).
Proof.
  intros Hid Hins.
  destruct (_clean_keys self true false now) as [attrs|e] eqn:Hattrs.
  2: { rewrite (insert_projection_raises _ _ _ _ e) in Hins by done. done. }
  rewrite (insert_no_identifier _ _ _ _ attrs) in Hins by done.
  destruct (gw_insert _ _ _ _) as [entry_id|e] eqn:Hgw; [|done].
  injection Hins as -> <- <-.
  assert (getattr (setattr self (primary_key self) ret)
            (primary_key (setattr self (primary_key self) ret)) VNone = ret) as Hget.
  { unfold getattr, setattr. simpl. by rewrite lookup_insert_eq. }
  split; [by exists attrs|]. split; [done|].
  intros Hret now'. apply insert_has_identifier. by rewrite Hget.
Qed.

Lemma insert_assigns_identifier_witness :
  truthy (getattr ada (primary_key ada) VNone) = false
  ∧ getattr (setattr ada "id" (VInt 7)) "id" VNone = VInt 7
  ∧ ∀ now', insert (users (fixed_gateway [] (OK (VInt 7)) (OK (VInt 1))))
              (setattr ada "id" (VInt 7)) now'
              [EvTransaction;
               EvInsert "users" {[ "name" := VStr "Ada";
                                   "created_at" := VStr "2014-03-01 12:00:00.000000" ]};
               EvCommit]
            = (OK (VBool false, setattr ada "id" (VInt 7)),
               [EvTransaction;
                EvInsert "users" {[ "name" := VStr "Ada";
                                    "created_at" := VStr "2014-03-01 12:00:00.000000" ]};
                EvCommit]).
Proof.
  split; [reflexivity|].
  destruct (insert_assigns_identifier
              (users (fixed_gateway [] (OK (VInt 7)) (OK (VInt 1))))
              ada (setattr ada "id" (VInt 7)) noon []
              [EvTransaction;
               EvInsert "users" {[ "name" := VStr "Ada";
                                   "created_at" := VStr "2014-03-01 12:00:00.000000" ]};
               EvCommit]
              (VInt 7) eq_refl) as (_ & Hget & Hnoop).
  - vm_compute. reflexivity.
  - split; [exact Hget | exact (Hnoop eq_refl)].
Defined.

(** C5: when the gateway's insert call raises, [insert] rolls the
    transaction back and raises the same exception; the log shows the
    transaction opened, the insert attempted and the rollback, and no commit. *)
Theorem insert_failure_rolls_back (cls : Class) (self : Instance) (now : val)
    (h : list event) (attrs : row) (e : exc) :
  truthy (getattr self (primary_key self) VNone) = false →
  _clean_keys self true false now = OK attrs →
  gw_insert (DB cls) (logged h EvTransaction) (table self) attrs = Raise e →
  insert cls self now h =
    (Raise e, (h ++ [EvTransaction; EvInsert (table self) attrs; EvRollback])%list).
Proof.
  intros Hid Hattrs Hgw.
  rewrite (insert_no_identifier _ _ _ _ attrs) by done. by rewrite Hgw.
Qed.

Lemma insert_failure_rolls_back_witness :
  truthy (getattr ada (primary_key ada) VNone) = false
  ∧ insert (users (fixed_gateway [] (Raise (GatewayError "duplicate key")) (OK (VInt 1))))
      ada noon []
    = (Raise (GatewayError "duplicate key"),
       [EvTransaction;
        EvInsert "users" {[ "name" := VStr "Ada";
                            "created_at" := VStr "2014-03-01 12:00:00.000000" ]};
        EvRollback]).
Proof.
  split; [reflexivity|].
  apply (insert_failure_rolls_back
           (users (fixed_gateway [] (Raise (GatewayError "duplicate key")) (OK (VInt 1))))
           ada noon []
           {[ "name" := VStr "Ada"; "created_at" := VStr "2014-03-01 12:00:00.000000" ]}
           (GatewayError "duplicate key")).
  - reflexivity.
  - vm_compute. reflexivity.
  - reflexivity.
Defined.

(** ** The shape of the projection *)

Lemma _clean_keys_unsafe (self : Instance) (db_operation : bool) (now : val) :
  _clean_keys self db_operation false now =
    match schema self !! "created", schema self !! "modified" with
    | None, Some _ => Raise (UnboundLocalError "timestamp")
    | created, modified =>
        OK (stamped modified (py_str now)
              (stamped created (py_str now) (projected self db_operation)))
    end.
Proof.
  unfold _clean_keys, projected. rewrite clean_loop_omap.
  destruct (schema self !! "created"), (schema self !! "modified"); reflexivity.
Qed.

Lemma _clean_keys_safe (self : Instance) (db_operation : bool) (now : val) :
  _clean_keys self db_operation true now =
    attrs ← _clean_keys self db_operation false now;
    if bool_decide (is_Some (schema self !! "password"))
    then attrs ← del_item "password" attrs; del_item "salt" attrs
    else OK attrs.
Proof.
  unfold _clean_keys. rewrite clean_loop_omap. cbn zeta.
  destruct (schema self !! "created"), (schema self !! "modified"); simpl;
    try reflexivity;
    repeat match goal with |- context [bool_decide ?P] => destruct (bool_decide P) end;
    simpl; try reflexivity;
    repeat (match goal with |- context [del_item ?k ?a] => destruct (del_item k a) end;
            simpl);
    reflexivity.
Qed.

Lemma projected_lookup (self : Instance) (db_operation : bool) (k : string) :
  projected self db_operation !! k =
    if db_operation && bool_decide (k = primary_key self) then None
    else schema self !! k ≫= kept self.
Proof.
  unfold projected. destruct db_operation; simpl.
  - case_bool_decide as Hpk.
    + case_bool_decide as Hk.
      * subst. by rewrite lookup_delete_eq.
      * rewrite lookup_delete_ne by done. by rewrite lookup_omap.
    + case_bool_decide as Hk.
      * subst. rewrite <- not_eq_None_Some in Hpk.
        destruct (decide (omap (kept self) (schema self) !! primary_key self = None))
          as [E|E]; [done|]. by destruct Hpk.
      * by rewrite lookup_omap.
  - by rewrite lookup_omap.
Qed.

Lemma stamped_is_Some (column : option string) (timestamp : string) (attrs : row)
    (k : string) :
  is_Some (attrs !! k) → is_Some (stamped column timestamp attrs !! k).
Proof.
  intros Hk. destruct column as [c|]; simpl; [|done].
  destruct (decide (c = k)) as [->|Hne].
  - rewrite lookup_insert_eq. by eexists.
  - by rewrite lookup_insert_ne.
Qed.

(** ** Serialisation *)

Lemma json_serializable_fmap (self : Instance) (now : val) :
  json_serializable self now =
    match _clean_keys self false false now with
    | OK attrs => OK (json_value <$> attrs)
    | Raise e => Raise e
    end.
Proof.
  unfold json_serializable. destruct (_clean_keys self false false now) as [attrs|e];
    simpl; [|done].
  f_equal. rewrite <- (list_to_map_to_list (json_value <$> attrs)).
  rewrite map_to_list_fmap. f_equal.
  apply list_fmap_ext. intros _ [k v] _. simpl. unfold json_value. by destruct v.
Qed.





(** ** Retrieval *)

(** C7, as stated, fails for a name the schema does not declare: on a table
    without rows the pair matches no row, and [cls.SCHEMA[attribute]] raises
    [KeyError] before the gateway is asked. *)
Lemma get_by_undeclared_attribute :
  get_by (users (fixed_gateway [] (OK (VInt 7)) (OK (VInt 1))))
         (User (fixed_gateway [] (OK (VInt 7)) (OK (VInt 1))))
         "nickname" (VStr "ada") None []
    = (Raise (KeyError "nickname"), []).
Proof. reflexivity. Qed.

(** C7, amended: for an attribute name that the schema of the class declares
    and a value for which the gateway finds no row, [get_by] returns [None];
    for an identifier for which the gateway finds no row, [exists] returns
    [None].  Neither raises, and each asked the gateway once. *)
Theorem get_by_and_exists_not_found (cls : Class) (new : Constructor)
    (attribute column : string) (value obj_id : val) (kw_db : option Gateway)
    (h : list event) :
  SCHEMA cls !! attribute = Some column →
  gw_where (default (DB cls) kw_db) h (TABLE cls) {[ column := value ]} = OK [] →
  gw_where (default (DB cls) kw_db) h (TABLE cls) {[ PRIMARY_KEY cls := obj_id ]} = OK [] →
  get_by cls new attribute value kw_db h
    = (OK None, logged h (EvWhere (TABLE cls) {[ column := value ]}))
  ∧ exists_ cls obj_id kw_db h
    = (OK None, logged h (EvWhere (TABLE cls) {[ PRIMARY_KEY cls := obj_id ]})).
Proof.
  intros Hcol Hby Hid. split.
  - unfold get_by. rewrite Hcol. simpl.
    unfold mbind, M_bind, except_IndexError, db_where. by rewrite Hby.
  - unfold exists_, get, except_IndexError.
    by rewrite _get_query_not_found.
Qed.

Lemma get_by_and_exists_not_found_witness :
  SCHEMA (users (fixed_gateway [] (OK (VInt 7)) (OK (VInt 1)))) !! "name" = Some "name"
  ∧ get_by (users (fixed_gateway [] (OK (VInt 7)) (OK (VInt 1))))
           (User (fixed_gateway [] (OK (VInt 7)) (OK (VInt 1))))
           "name" (VStr "nonexistent") None []
      = (OK None, [EvWhere "users" {[ "name" := VStr "nonexistent" ]}])
  ∧ exists_ (users (fixed_gateway [] (OK (VInt 7)) (OK (VInt 1)))) (VInt 9) None []
      = (OK None, [EvWhere "users" {[ "id" := VInt 9 ]}]).
Proof.
  split; [reflexivity|].
  apply (get_by_and_exists_not_found
           (users (fixed_gateway [] (OK (VInt 7)) (OK (VInt 1))))
           (User (fixed_gateway [] (OK (VInt 7)) (OK (VInt 1))))
           "name" "name" (VStr "nonexistent") (VInt 9) None []); reflexivity.
Defined.

(** ** The construction paths *)

Lemma __init___by_id (cls : Class) (obj_id : val) (raw_data : option row)
    (primary_key table : string) (schema : gmap string string) (h : list event)
    (r : row) (rest : list row) :
  truthy obj_id = true →
  gw_where (DB cls) h (TABLE cls) {[ PRIMARY_KEY cls := obj_id ]} = OK (r :: rest) →
  __init__ cls obj_id raw_data primary_key table schema h =
    (OK {| primary_key := primary_key; schema := schema; table := table;
           obj_id := obj_id; _raw_data := Some r;
           attributes := omap (λ column, r !! column) schema ∪ ∅ |},
     logged h (EvWhere (TABLE cls) {[ PRIMARY_KEY cls := obj_id ]})).
Proof.
  intros Hid Hrows. unfold __init__, _construct_obj. simpl. rewrite Hid.
  unfold _construct_obj_from_id. simpl. unfold mbind at 1, M_bind at 1.
  rewrite (_get_query_found _ _ _ _ r rest) by done. unfold lift. simpl.
  by rewrite _set_data_Some.
Qed.

Lemma __init___by_row (cls : Class) (obj_id : val) (r : row)
    (primary_key table : string) (schema : gmap string string) (h : list event) :
  truthy obj_id = false →
  r ≠ ∅ →
  __init__ cls obj_id (Some r) primary_key table schema h =
    (OK {| primary_key := primary_key; schema := schema; table := table;
           obj_id := default VNone (r !! primary_key); _raw_data := Some r;
           attributes := omap (λ column, r !! column) schema ∪ ∅ |},
     h).
Proof.
  intros Hid Hrow. unfold __init__, _construct_obj. simpl. rewrite Hid.
  unfold truthy_row. rewrite bool_decide_eq_false_2 by done. simpl.
  unfold lift, _construct_obj_from_data. simpl.
  destruct (r !! primary_key); simpl; by rewrite _set_data_Some.
Qed.

Lemma __init___by_defaults (cls : Class) (obj_id : val) (raw_data : option row)
    (primary_key table : string) (schema : gmap string string) (h : list event) :
  truthy obj_id = false →
  from_option truthy_row false raw_data = false →
  __init__ cls obj_id raw_data primary_key table schema h =
    (OK {| primary_key := primary_key; schema := schema; table := table;
           obj_id := obj_id; _raw_data := raw_data;
           attributes := ((λ _, VNone) <$> schema) ∪ ∅ |},
     h).
Proof.
  intros Hid Hrow. unfold __init__, _construct_obj. simpl. rewrite Hid, Hrow.
  by rewrite _construct_obj_from_defaults_eq.
Qed.

Lemma get_found_inv (cls : Class) (obj_id : val) (kw_db : option Gateway)
    (h : list event) (r : row) :
  (get cls obj_id kw_db h).1 = OK (Some r) →
  ∃ rest, gw_where (default (DB cls) kw_db) h (TABLE cls) {[ PRIMARY_KEY cls := obj_id ]}
            = OK (r :: rest).
Proof.
  unfold get, _get_query, except_IndexError, db_where. simpl. unfold mbind, M_bind.
  destruct (gw_where _ _ _ _) as [[|r' rest]|[]]; simpl; try done.
  intros [= ->]. by exists rest.
Qed.

(** C8, as stated, fails for a falsy identifier: [0] matches the stored row
    [row0], yet [_construct_obj] takes the identifier [0] for none given and
    builds the defaults, while the row itself gives the stored name. *)
Lemma construct_by_zero_id_differs :
  (get (users (fixed_gateway [row0] (OK (VInt 7)) (OK (VInt 1)))) (VInt 0) None []).1
    = OK (Some row0)
  ∧ ∃ by_id by_row : Instance,
      (__init__ (users (fixed_gateway [row0] (OK (VInt 7)) (OK (VInt 1))))
                (VInt 0) None "id" "users" users_schema []).1 = OK by_id
      ∧ (__init__ (users (fixed_gateway [row0] (OK (VInt 7)) (OK (VInt 1))))
                  VNone (Some row0) "id" "users" users_schema []).1 = OK by_row
      ∧ attributes by_id !! "name" = Some VNone
      ∧ attributes by_row !! "name" = Some (VStr "Ada").
Proof.
  split; [reflexivity|].
  eexists _, _. split; [reflexivity|]. split; [reflexivity|]. by vm_compute.
Qed.

(** C8, amended: for an identifier [X] and a row [r] fetched for it that the
    guards of [_construct_obj] accept, [X] truthy and [r] not empty, the
    instance constructed by [X] and the instance constructed from [r] have
    the same attributes.  The row is the one [get] returns with the gateway
    in the state [h] in which the constructor by identifier finds it. *)
Theorem construct_by_id_and_by_row_agree (cls : Class) (X : val) (r : row)
    (primary_key table : string) (schema : gmap string string) (h h' : list event) :
  truthy X = true →
  r ≠ ∅ →
  (get cls X None h).1 = OK (Some r) →
  ∃ by_id by_row : Instance,
    (__init__ cls X None primary_key table schema h).1 = OK by_id
    ∧ (__init__ cls VNone (Some r) primary_key table schema h').1 = OK by_row
    ∧ attributes by_id = attributes by_row
    ∧ ∀ key, is_Some (schema !! key) →
        getattr by_id key VNone = getattr by_row key VNone.
Proof.
  intros HX Hr Hget. apply get_found_inv in Hget as [rest Hrows]. simpl in Hrows.
  rewrite (__init___by_id _ _ _ _ _ _ _ r rest) by done.
  rewrite __init___by_row by done.
  eexists _, _. split; [done|]. split; [done|]. split; [done|]. done.
Qed.

Lemma construct_by_id_and_by_row_agree_witness :
  truthy (VInt 7) = true
  ∧ row7 ≠ ∅
  ∧ ∃ by_id by_row : Instance,
      (__init__ (users (fixed_gateway [row7] (OK (VInt 7)) (OK (VInt 1))))
                (VInt 7) None "id" "users" users_schema []).1 = OK by_id
      ∧ (__init__ (users (fixed_gateway [row7] (OK (VInt 7)) (OK (VInt 1))))
                  VNone (Some row7) "id" "users" users_schema []).1 = OK by_row
      ∧ attributes by_id = attributes by_row.
Proof.
  split; [reflexivity|]. split; [by vm_compute|].
  destruct (construct_by_id_and_by_row_agree
              (users (fixed_gateway [row7] (OK (VInt 7)) (OK (VInt 1))))
              (VInt 7) row7 "id" "users" users_schema [] [])
    as (by_id & by_row & Hid & Hrow & Hattrs & _).
  - reflexivity.
  - by vm_compute.
  - reflexivity.
  - exists by_id, by_row. split; [exact Hid|]. split; [exact Hrow | exact Hattrs].
Defined.

(** ** Field names against column names *)






(** ** The safe projection *)

Lemma stamped_lookup_ne (column : option string) (timestamp : string) (attrs : row)
    (k : string) :
  column ≠ Some k → stamped column timestamp attrs !! k = attrs !! k.
Proof.
  intros Hne. destruct column as [c|]; simpl; [|done].
  rewrite lookup_insert_ne; [done|]. by intros ->.
Qed.

Lemma safe_deletions_raise (attrs : row) :
  attrs !! "password" = None ∨ attrs !! "salt" = None →
  (attrs' ← del_item "password" attrs; del_item "salt" attrs') = Raise (KeyError "password")
  ∨ (attrs' ← del_item "password" attrs; del_item "salt" attrs') = Raise (KeyError "salt").
Proof.
  intros Hmissing. unfold del_item at 2 4.
  destruct (attrs !! "password") as [pw|] eqn:Hpw; simpl; [|by left].
  right. unfold del_item. rewrite lookup_delete_ne by done.
  by destruct Hmissing as [?| ->].
Qed.

(** C10, as stated, fails when the schema declares [modified] without
    [created]: the safe projection of an instance without a password then
    stops on the unbound [timestamp] before it reaches the deletions, and
    the exception is not a [KeyError]. *)
Lemma safe_projection_unbound_timestamp :
  schema login !! "password" = Some "password"
  ∧ getattr login "password" VNone = VNone
  ∧ _clean_keys login true true noon = Raise (UnboundLocalError "timestamp").
Proof. repeat split; by vm_compute. Qed.

(** C10, amended: let the schema declare [password], let the timestamps be
    written (the schema declares [created], or does not declare [modified])
    and to columns named neither [password] nor [salt].  Then the safe
    projection of an instance whose password attribute is falsy or absent, or
    whose salt attribute is, raises [KeyError] on the key it does not find:
    the first loop left it out and the deletions do not test for it. *)
Theorem safe_projection_raises_KeyError (self : Instance) (db_operation : bool)
    (now : val) (password : string) :
  schema self !! "password" = Some password →
  (is_Some (schema self !! "created") ∨ schema self !! "modified" = None) →
  schema self !! "created" ≠ Some "password" →
  schema self !! "created" ≠ Some "salt" →
  schema self !! "modified" ≠ Some "password" →
  schema self !! "modified" ≠ Some "salt" →
  (truthy (getattr self password VNone) = false
   ∨ ∀ salt, schema self !! "salt" = Some salt → truthy (getattr self salt VNone) = false) →
  _clean_keys self db_operation true now = Raise (KeyError "password")
  ∨ _clean_keys self db_operation true now = Raise (KeyError "salt").
Proof.
  intros Hp Hts Hcp Hcs Hmp Hms Hfalsy.
  assert (projected self db_operation !! "password" = None
          ∨ projected self db_operation !! "salt" = None) as Hmissing.
  { destruct Hfalsy as [Hpw|Hsalt].
    - left. rewrite projected_lookup.
      destruct (db_operation && _); [done|]. rewrite Hp. simpl. unfold kept.
      by rewrite Hpw.
    - right. rewrite projected_lookup.
      destruct (db_operation && _); [done|].
      destruct (schema self !! "salt") as [salt|] eqn:Hs; [|done]. simpl. unfold kept.
      by rewrite (Hsalt salt). }
  rewrite _clean_keys_safe, _clean_keys_unsafe.
  rewrite bool_decide_eq_true_2 by (by eexists).
  destruct (schema self !! "created") as [c|] eqn:Hc,
           (schema self !! "modified") as [m|] eqn:Hm;
    [| | by destruct Hts as [[? ?]|?] |];
    cbn [mbind result_bind]; apply safe_deletions_raise;
    by rewrite !stamped_lookup_ne.
Qed.

Lemma safe_projection_raises_KeyError_witness :
  schema account_without_salt !! "password" = Some "password"
  ∧ truthy (getattr account_without_salt "salt" VNone) = false
  ∧ (_clean_keys account_without_salt true true noon = Raise (KeyError "password")
     ∨ _clean_keys account_without_salt true true noon = Raise (KeyError "salt")).
Proof.
  split; [reflexivity|]. split; [reflexivity|].
  apply (safe_projection_raises_KeyError account_without_salt true noon "password").
  - reflexivity.
  - left. exists "created". reflexivity.
  - by vm_compute.
  - by vm_compute.
  - by vm_compute.
  - by vm_compute.
  - right. intros salt Hsalt. vm_compute in Hsalt. injection Hsalt as <-. reflexivity.
Defined.

(** * Further properties *)

(** ** Writes on fresh and on stored instances *)

(** X1: an instance constructed by defaults has no identifier, whatever its
    schema: [update] on it returns [None] and does not call the gateway. *)
Theorem update_after_defaults_is_noop (cls : Class) (X : val) (raw_data : option row)
    (primary_key table : string) (schema : gmap string string) (h : list event) :
  truthy X = false →
  from_option truthy_row false raw_data = false →
  ∃ self, __init__ cls X raw_data primary_key table schema h = (OK self, h)
          ∧ ∀ now h', update cls self now h' = (OK VNone, h').
Proof.
  intros HX Hraw. rewrite __init___by_defaults by done.
  eexists. split; [done|]. intros now h'. apply update_no_identifier.
  unfold getattr. simpl. rewrite lookup_union, lookup_fmap, lookup_empty.
  by destruct (schema !! primary_key).
Qed.

Lemma update_after_defaults_is_noop_witness :
  ∃ self, __init__ (users (fixed_gateway [] (OK (VInt 7)) (OK (VInt 1))))
            VNone None "id" "users" users_schema [] = (OK self, [])
          ∧ update (users (fixed_gateway [] (OK (VInt 7)) (OK (VInt 1)))) self noon []
            = (OK VNone, []).
Proof.
  destruct (update_after_defaults_is_noop
              (users (fixed_gateway [] (OK (VInt 7)) (OK (VInt 1))))
              VNone None "id" "users" users_schema [] eq_refl eq_refl)
    as (self & Hinit & Hupdate).
  exists self. split; [exact Hinit | exact (Hupdate noon [])].
Defined.

(** X2: an instance constructed from a row in which the column of the
    primary key holds a truthy value has an identifier: [insert] on it
    returns [False] and does not call the gateway. *)
Theorem insert_after_row_is_refused (cls : Class) (X : val) (r : row)
    (primary_key table column : string) (schema : gmap string string)
    (v : val) (h : list event) :
  truthy X = false →
  schema !! primary_key = Some column →
  r !! column = Some v →
  truthy v = true →
  ∃ self, __init__ cls X (Some r) primary_key table schema h = (OK self, h)
          ∧ getattr self primary_key VNone = v
          ∧ ∀ now h', insert cls self now h' = (OK (VBool false, self), h').
Proof.
  intros HX Hpk Hcol Hv.
  rewrite __init___by_row; [|done|by intros ->].
  eexists. split; [done|].
  assert (∀ o, getattr
            {| primary_key := primary_key; schema := schema; table := table;
               obj_id := o; _raw_data := Some r;
               attributes := omap (λ column, r !! column) schema ∪ ∅ |}
            primary_key VNone = v) as Hget.
  { intros o. unfold getattr. simpl.
    by rewrite lookup_union, lookup_omap, Hpk, lookup_empty; simpl; rewrite Hcol. }
  split; [apply Hget|]. intros now h'. apply insert_has_identifier.
  simpl. by rewrite Hget.
Qed.

Lemma insert_after_row_is_refused_witness :
  ∃ self, __init__ (users (fixed_gateway [] (OK (VInt 9)) (OK (VInt 1))))
            VNone (Some row7) "id" "users" users_schema [] = (OK self, [])
          ∧ getattr self "id" VNone = VInt 7
          ∧ insert (users (fixed_gateway [] (OK (VInt 9)) (OK (VInt 1)))) self noon []
            = (OK (VBool false, self), []).
Proof.
  destruct (insert_after_row_is_refused
              (users (fixed_gateway [] (OK (VInt 9)) (OK (VInt 1))))
              VNone row7 "id" "users" "id" users_schema (VInt 7) []
              eq_refl eq_refl eq_refl eq_refl)
    as (self & Hinit & Hget & Hinsert).
  exists self. split; [exact Hinit|]. split; [exact Hget | exact (Hinsert noon [])].
Defined.

(** X3: when the gateway's update call raises, [update] raises the same
    exception: the [with] block is left by the exception, so the gateway has
    seen the transaction opened, the update and a rollback, and no commit. *)
Theorem update_failure_propagates (cls : Class) (self : Instance) (now : val)
    (h : list event) (attrs : row) (e : exc) :
  truthy (getattr self (primary_key self) VNone) = true →
  _clean_keys self true false now = OK attrs →
  gw_update (DB cls) (logged h EvTransaction) (table self)
    (primary_key self +:+ "=" +:+ py_str (getattr self (primary_key self) VNone)) attrs
    = Raise e →
  update cls self now h =
    (Raise e,
     (h ++ [EvTransaction;
            EvUpdate (table self)
              (primary_key self +:+ "=" +:+ py_str (getattr self (primary_key self) VNone))
              attrs;
            EvRollback])%list).
Proof.
  intros Hid Hattrs Hgw.
  rewrite (update_has_identifier _ _ _ _ attrs) by done. cbn zeta. by rewrite Hgw.
Qed.

Lemma update_failure_propagates_witness :
  truthy (getattr ada7 (primary_key ada7) VNone) = true
  ∧ update (users (fixed_gateway [] (OK (VInt 7)) (Raise (GatewayError "deadlock"))))
      ada7 noon []
    = (Raise (GatewayError "deadlock"),
       [EvTransaction;
        EvUpdate "users" "id=7"
          {[ "name" := VStr "Ada Lovelace";
             "created_at" := VStr "2014-03-01 12:00:00.000000" ]};
        EvRollback]).
Proof.
  split; [reflexivity|].
  apply (update_failure_propagates
           (users (fixed_gateway [] (OK (VInt 7)) (Raise (GatewayError "deadlock"))))
           ada7 noon []
           {[ "name" := VStr "Ada Lovelace";
              "created_at" := VStr "2014-03-01 12:00:00.000000" ]}
           (GatewayError "deadlock")).
  - reflexivity.
  - vm_compute. reflexivity.
  - reflexivity.
Defined.

(** ** What the projection holds *)

Lemma stamped_lookup (column : option string) (timestamp : string) (attrs : row)
    (k : string) :
  stamped column timestamp attrs !! k =
    if decide (column = Some k) then Some (VStr timestamp) else attrs !! k.
Proof.
  destruct column as [c|]; unfold stamped.
  - destruct (decide (Some c = Some k)) as [[= ->]|Hne].
    + by rewrite lookup_insert_eq.
    + rewrite lookup_insert_ne; [done|]. by intros ->.
  - by destruct (decide (None = Some k)).
Qed.

(** An outcome of [_clean_keys] without [safe], entry by entry. *)
Lemma _clean_keys_unsafe_lookup (self : Instance) (db_operation : bool) (now : val)
    (attrs : row) (k : string) :
  _clean_keys self db_operation false now = OK attrs →
  attrs !! k =
    if decide (schema self !! "modified" = Some k) then Some (VStr (py_str now))
    else if decide (schema self !! "created" = Some k) then Some (VStr (py_str now))
    else projected self db_operation !! k.
Proof.
  intros Hattrs.
  assert (attrs = stamped (schema self !! "modified") (py_str now)
                    (stamped (schema self !! "created") (py_str now)
                       (projected self db_operation))) as ->.
  { rewrite _clean_keys_unsafe in Hattrs.
    destruct (schema self !! "created"), (schema self !! "modified");
      congruence. }
  by rewrite !stamped_lookup.
Qed.

(** The safe outcome is the one without [safe], less the two credentials. *)
Lemma _clean_keys_safe_inv (self : Instance) (db_operation safe : bool) (now : val)
    (attrs : row) :
  _clean_keys self db_operation safe now = OK attrs →
  ∃ attrs0, _clean_keys self db_operation false now = OK attrs0
            ∧ (attrs = attrs0 ∨ attrs = delete "salt" (delete "password" attrs0)).
Proof.
  destruct safe; [|by eauto].
  rewrite _clean_keys_safe.
  destruct (_clean_keys self db_operation false now) as [attrs0|e]; [|done]. simpl.
  destruct (bool_decide _); [|intros [= <-]; by eauto].
  unfold del_item at 2. destruct (attrs0 !! "password"); [|done]. simpl.
  unfold del_item. destruct (delete "password" attrs0 !! "salt"); [|done].
  intros [= <-]. by eauto.
Qed.

Lemma _clean_keys_safe_subset (self : Instance) (db_operation safe : bool) (now : val)
    (attrs : row) (k : string) (v : val) :
  _clean_keys self db_operation safe now = OK attrs →
  attrs !! k = Some v →
  ∃ attrs0, _clean_keys self db_operation false now = OK attrs0 ∧ attrs0 !! k = Some v.
Proof.
  intros Hattrs Hk. apply _clean_keys_safe_inv in Hattrs as (attrs0 & H0 & [->| ->]).
  - by exists attrs0.
  - exists attrs0. split; [done|].
    apply lookup_delete_Some in Hk as [_ Hk]. by apply lookup_delete_Some in Hk as [_ Hk].
Qed.

(** X4: a projection for a database operation never holds the primary key,
    provided no timestamp is stored in a column of that name: the identifier
    is not part of the payload of [insert] and [update]. *)
Theorem write_projection_omits_primary_key (self : Instance) (safe : bool) (now : val)
    (attrs : row) :
  schema self !! "created" ≠ Some (primary_key self) →
  schema self !! "modified" ≠ Some (primary_key self) →
  _clean_keys self true safe now = OK attrs →
  attrs !! primary_key self = None.
Proof.
  intros Hc Hm Hattrs.
  destruct (attrs !! primary_key self) as [v|] eqn:Hpk; [|done].
  destruct (_clean_keys_safe_subset _ _ _ _ _ _ _ Hattrs Hpk) as (attrs0 & H0 & Hk).
  rewrite (_clean_keys_unsafe_lookup _ _ _ _ _ H0) in Hk.
  rewrite !decide_False in Hk by done.
  rewrite projected_lookup in Hk. simpl in Hk.
  by rewrite bool_decide_eq_true_2 in Hk.
Qed.

Lemma write_projection_omits_primary_key_witness :
  _clean_keys ada7 true false noon
    = OK {[ "name" := VStr "Ada Lovelace";
            "created_at" := VStr "2014-03-01 12:00:00.000000" ]}
  ∧ ({[ "name" := VStr "Ada Lovelace";
        "created_at" := VStr "2014-03-01 12:00:00.000000" ]} : row) !! "id" = None.
Proof.
  assert (_clean_keys ada7 true false noon
          = OK {[ "name" := VStr "Ada Lovelace";
                  "created_at" := VStr "2014-03-01 12:00:00.000000" ]}) as Hattrs.
  { vm_compute. reflexivity. }
  split; [exact Hattrs|].
  apply (write_projection_omits_primary_key ada7 false noon _).
  - by vm_compute.
  - by vm_compute.
  - exact Hattrs.
Defined.

(** X5: a field whose attribute, read under the name of its column, is
    falsy or absent has no entry in [_json_serializable], and none in any
    projection, provided no timestamp is stored in a column named like the
    field. *)
Theorem falsy_fields_are_omitted (self : Instance) (key column : string) :
  schema self !! key = Some column →
  truthy (getattr self column VNone) = false →
  (∀ safe, _json_serializable self safe !! key = None)
  ∧ (schema self !! "created" ≠ Some key →
     schema self !! "modified" ≠ Some key →
     ∀ db_operation safe now attrs,
       _clean_keys self db_operation safe now = OK attrs → attrs !! key = None).
Proof.
  intros Hkey Hfalsy. split.
  - intros safe. rewrite json_serializable_lookup, Hkey. simpl. unfold rendered.
    by rewrite Hfalsy.
  - intros Hc Hm db_operation safe now attrs Hattrs.
    destruct (attrs !! key) as [v|] eqn:Hk; [|done].
    destruct (_clean_keys_safe_subset _ _ _ _ _ _ _ Hattrs Hk) as (attrs0 & H0 & Hk0).
    rewrite (_clean_keys_unsafe_lookup _ _ _ _ _ H0) in Hk0.
    rewrite !decide_False in Hk0 by done.
    rewrite projected_lookup, Hkey in Hk0. simpl in Hk0. unfold kept in Hk0.
    rewrite Hfalsy in Hk0. by destruct (db_operation && _).
Qed.

Lemma falsy_fields_are_omitted_witness :
  schema ada !! "id" = Some "id"
  ∧ truthy (getattr ada "id" VNone) = false
  ∧ _json_serializable ada true !! "id" = None
  ∧ ∀ attrs, _clean_keys ada false false noon = OK attrs → attrs !! "id" = None.
Proof.
  split; [reflexivity|]. split; [reflexivity|].
  destruct (falsy_fields_are_omitted ada "id" "id" eq_refl eq_refl) as [Hjson Hclean].
  split; [exact (Hjson true)|].
  apply (Hclean ltac:(by vm_compute) ltac:(by vm_compute) false false noon).
Defined.

(** X6: every entry of a projection is either a timestamp, the text of the
    current time under the column of [created] or of [modified], or a field
    of the schema with the truthy value of the attribute named by its column.
    Nothing else is ever sent. *)
Theorem projection_entries (self : Instance) (db_operation safe : bool) (now : val)
    (attrs : row) (k : string) (v : val) :
  _clean_keys self db_operation safe now = OK attrs →
  attrs !! k = Some v →
  (v = VStr (py_str now)
   ∧ (schema self !! "created" = Some k ∨ schema self !! "modified" = Some k))
  ∨ (∃ column, schema self !! k = Some column
               ∧ v = getattr self column VNone
               ∧ truthy v = true).
Proof.
  intros Hattrs Hk.
  destruct (_clean_keys_safe_subset _ _ _ _ _ _ _ Hattrs Hk) as (attrs0 & H0 & Hk0).
  rewrite (_clean_keys_unsafe_lookup _ _ _ _ _ H0) in Hk0.
  destruct (decide (schema self !! "modified" = Some k)) as [Hm|Hm].
  { left. injection Hk0 as <-. by auto. }
  destruct (decide (schema self !! "created" = Some k)) as [Hc|Hc].
  { left. injection Hk0 as <-. by auto. }
  right. rewrite projected_lookup in Hk0.
  destruct (db_operation && _); [done|].
  destruct (schema self !! k) as [column|]; [|done]. simpl in Hk0. unfold kept in Hk0.
  destruct (truthy (getattr self column VNone)) eqn:Htrue; [|done].
  injection Hk0 as <-. by exists column.
Qed.

Lemma projection_entries_witness :
  _clean_keys ada true false noon
    = OK {[ "name" := VStr "Ada"; "created_at" := VStr "2014-03-01 12:00:00.000000" ]}
  ∧ ((VStr "Ada" = VStr (py_str noon)
      ∧ (schema ada !! "created" = Some "name" ∨ schema ada !! "modified" = Some "name"))
     ∨ ∃ column, schema ada !! "name" = Some column
                 ∧ VStr "Ada" = getattr ada column VNone
                 ∧ truthy (VStr "Ada") = true).
Proof.
  assert (_clean_keys ada true false noon
          = OK {[ "name" := VStr "Ada";
                  "created_at" := VStr "2014-03-01 12:00:00.000000" ]}) as Hattrs.
  { vm_compute. reflexivity. }
  split; [exact Hattrs|].
  apply (projection_entries ada true false noon _ "name" (VStr "Ada") Hattrs).
  reflexivity.
Defined.

(** X7: let the schema declare [password] and [salt], let the two
    attributes that the projection reads for them, the ones named by their
    storage columns, be truthy, let neither field be the primary key of a
    database operation, and let the timestamps be written.  Then the safe
    projection returns: it is the projection without [safe], less the keys
    [password] and [salt]. *)
Theorem safe_projection_drops_credentials (self : Instance) (db_operation : bool)
    (now : val) (password_column salt_column : string) :
  schema self !! "password" = Some password_column →
  schema self !! "salt" = Some salt_column →
  truthy (getattr self password_column VNone) = true →
  truthy (getattr self salt_column VNone) = true →
  (db_operation = false ∨ (primary_key self ≠ "password" ∧ primary_key self ≠ "salt")) →
  (is_Some (schema self !! "created") ∨ schema self !! "modified" = None) →
  ∃ attrs, _clean_keys self db_operation false now = OK attrs
           ∧ _clean_keys self db_operation true now
             = OK (delete "salt" (delete "password" attrs)).
Proof.
  intros Hp Hs Hpt Hst Hpk Hts.
  assert (∀ key column, schema self !! key = Some column →
            truthy (getattr self column VNone) = true →
            (db_operation = false ∨ primary_key self ≠ key) →
            is_Some (projected self db_operation !! key)) as Hin.
  { intros key column Hkey Htrue Hne. rewrite projected_lookup.
    assert (db_operation && bool_decide (key = primary_key self) = false) as ->.
    { destruct Hne as [->|Hne]; [done|].
      rewrite bool_decide_eq_false_2 by done. by rewrite andb_false_r. }
    rewrite Hkey. simpl. unfold kept. rewrite Htrue. by eexists. }
  rewrite _clean_keys_safe, _clean_keys_unsafe.
  set (a := stamped (schema self !! "modified") (py_str now)
              (stamped (schema self !! "created") (py_str now)
                 (projected self db_operation))).
  assert (is_Some (a !! "password")) as [pw Hpw].
  { do 2 apply stamped_is_Some. apply (Hin _ password_column); [done..|].
    destruct Hpk as [?|[? ?]]; [by left|by right]. }
  assert (is_Some (a !! "salt")) as [sl Hsl].
  { do 2 apply stamped_is_Some. apply (Hin _ salt_column); [done..|].
    destruct Hpk as [?|[? ?]]; [by left|by right]. }
  assert (match schema self !! "created", schema self !! "modified" with
          | None, Some _ => Raise (UnboundLocalError "timestamp")
          | created, modified =>
              OK (stamped modified (py_str now)
                    (stamped created (py_str now) (projected self db_operation)))
          end = OK a) as ->.
  { unfold a. destruct Hts as [[c ->]| ->]; [done|].
    by destruct (schema self !! "created"). }
  exists a. split; [done|]. simpl.
  rewrite bool_decide_eq_true_2 by (by eexists).
  unfold del_item at 2. rewrite Hpw. simpl.
  unfold del_item. rewrite lookup_delete_ne by done. by rewrite Hsl.
Qed.

Lemma safe_projection_drops_credentials_witness :
  _clean_keys account false true noon
    = OK {[ "email" := VStr "ada@example.org";
            "created" := VStr "2014-03-01 12:00:00.000000" ]}.
Proof.
  destruct (safe_projection_drops_credentials account false noon "password" "salt")
    as (attrs & Hunsafe & Hsafe).
  - reflexivity.
  - reflexivity.
  - reflexivity.
  - reflexivity.
  - left. reflexivity.
  - left. exists "created". reflexivity.
  - rewrite Hsafe. vm_compute in Hunsafe. injection Hunsafe as <-.
    vm_compute. reflexivity.
Defined.

(** ** The construction paths, one by one *)

(** X8: constructing from a non-empty row does not call the gateway, keeps
    the row, and sets exactly the fields whose column the row has, each to
    the cell of its column; columns that no field is mapped to are ignored. *)
Theorem construct_from_row_sets_mapped_fields (cls : Class) (X : val) (r : row)
    (primary_key table : string) (schema : gmap string string) (h : list event) :
  truthy X = false →
  r ≠ ∅ →
  ∃ self, __init__ cls X (Some r) primary_key table schema h = (OK self, h)
          ∧ _raw_data self = Some r
          ∧ ∀ key, attributes self !! key = schema !! key ≫= (λ column, r !! column).
Proof.
  intros HX Hr. rewrite __init___by_row by done.
  eexists. split; [done|]. split; [done|]. intros key. simpl.
  by rewrite (right_id_L ∅ (∪)), lookup_omap.
Qed.

Lemma construct_from_row_sets_mapped_fields_witness :
  ∃ self, __init__ (people (fixed_gateway [] (OK (VInt 7)) (OK (VInt 1))))
            VNone (Some person_row) "id" "people" people_schema [] = (OK self, [])
          ∧ attributes self !! "name" = Some (VStr "Ada")
          ∧ attributes self !! "full_name" = None.
Proof.
  destruct (construct_from_row_sets_mapped_fields
              (people (fixed_gateway [] (OK (VInt 7)) (OK (VInt 1))))
              VNone person_row "id" "people" people_schema [])
    as (self & Hinit & _ & Hattrs).
  - reflexivity.
  - by vm_compute.
  - exists self. split; [exact Hinit|].
    split; [exact (Hattrs "name") | exact (Hattrs "full_name")].
Defined.

(** X9: constructing by defaults, which is what happens without identifier
    and without a non-empty row, does not call the gateway, leaves the
    identifier slot as given, and sets every field of the schema to [None]
    and nothing else. *)
Theorem construct_by_defaults_sets_None (cls : Class) (X : val) (raw_data : option row)
    (primary_key table : string) (schema : gmap string string) (h : list event) :
  truthy X = false →
  from_option truthy_row false raw_data = false →
  ∃ self, __init__ cls X raw_data primary_key table schema h = (OK self, h)
          ∧ obj_id self = X
          ∧ ∀ key, attributes self !! key = (λ _, VNone) <$> schema !! key.
Proof.
  intros HX Hraw. rewrite __init___by_defaults by done.
  eexists. split; [done|]. split; [done|]. intros key. simpl.
  by rewrite (right_id_L ∅ (∪)), lookup_fmap.
Qed.

Lemma construct_by_defaults_sets_None_witness :
  ∃ self, __init__ (users (fixed_gateway [row7] (OK (VInt 7)) (OK (VInt 1))))
            (VInt 0) (Some ∅) "id" "users" users_schema [] = (OK self, [])
          ∧ attributes self !! "name" = Some VNone
          ∧ attributes self !! "created_at" = None.
Proof.
  destruct (construct_by_defaults_sets_None
              (users (fixed_gateway [row7] (OK (VInt 7)) (OK (VInt 1))))
              (VInt 0) (Some ∅) "id" "users" users_schema [])
    as (self & Hinit & _ & Hattrs).
  - reflexivity.
  - by vm_compute.
  - exists self. split; [exact Hinit|].
    split; [exact (Hattrs "name") | exact (Hattrs "created_at")].
Defined.

(** X10: constructing from a row reads the identifier slot from the row
    under the name of the primary-key field, not under its storage column,
    and [delete] addresses the row by that slot.  So for a schema that
    stores the primary key in a column of another name the slot is [None]
    although the attribute holds the identifier, and [delete] asks the
    gateway for the row whose key equals [None]. *)
Theorem construct_from_row_reads_id_under_field_name (cls : Class) (X : val) (r : row)
    (primary_key table : string) (schema : gmap string string) (h : list event) :
  truthy X = false →
  r ≠ ∅ →
  ∃ self, __init__ cls X (Some r) primary_key table schema h = (OK self, h)
          ∧ obj_id self = default VNone (r !! primary_key)
          ∧ ∀ h', delete_ cls self h' =
              (gw_delete (DB cls) h' table
                 (primary_key +:+ "=" +:+ py_str (default VNone (r !! primary_key))),
               logged h'
                 (EvDelete table
                    (primary_key +:+ "=" +:+ py_str (default VNone (r !! primary_key))))).
Proof.
  intros HX Hr. rewrite __init___by_row by done.
  eexists. split; [done|]. split; [done|]. done.
Qed.

Lemma construct_from_row_reads_id_under_field_name_witness :
  ∃ self, __init__ (users (fixed_gateway [] (OK (VInt 7)) (OK (VInt 1))))
            VNone (Some member_row) "id" "members" members_schema [] = (OK self, [])
          ∧ getattr self "id" VNone = VInt 7
          ∧ obj_id self = VNone
          ∧ delete_ (users (fixed_gateway [] (OK (VInt 7)) (OK (VInt 1)))) self []
            = (OK (VInt 1), [EvDelete "members" "id=None"]).
Proof.
  destruct (construct_from_row_reads_id_under_field_name
              (users (fixed_gateway [] (OK (VInt 7)) (OK (VInt 1))))
              VNone member_row "id" "members" members_schema [])
    as (self & Hinit & Hid & Hdelete).
  - reflexivity.
  - by vm_compute.
  - exists self. split; [exact Hinit|].
    split; [|split; [exact Hid | exact (Hdelete [])]].
    vm_compute in Hinit. injection Hinit as <-. by vm_compute.
Defined.

(** X11: constructing by a truthy identifier asks the gateway once, for the
    rows of the class's [TABLE] whose [PRIMARY_KEY] equals the identifier,
    and populates the instance from the first row of the answer: the further
    rows and the [raw_data] argument play no part. *)
Theorem construct_by_id_uses_first_row (cls : Class) (X : val) (raw_data : option row)
    (primary_key table : string) (schema : gmap string string) (h : list event)
    (r : row) (rest : list row) :
  truthy X = true →
  gw_where (DB cls) h (TABLE cls) {[ PRIMARY_KEY cls := X ]} = OK (r :: rest) →
  ∃ self, __init__ cls X raw_data primary_key table schema h
            = (OK self, logged h (EvWhere (TABLE cls) {[ PRIMARY_KEY cls := X ]}))
          ∧ obj_id self = X
          ∧ _raw_data self = Some r
          ∧ ∀ key, attributes self !! key = schema !! key ≫= (λ column, r !! column).
Proof.
  intros HX Hrows. rewrite (__init___by_id _ _ _ _ _ _ _ r rest) by done.
  eexists. split; [done|]. split; [done|]. split; [done|]. intros key. simpl.
  by rewrite (right_id_L ∅ (∪)), lookup_omap.
Qed.

Lemma construct_by_id_uses_first_row_witness :
  ∃ self, __init__ (users (fixed_gateway [row7; row0] (OK (VInt 7)) (OK (VInt 1))))
            (VInt 7) (Some row0) "id" "users" users_schema []
            = (OK self, [EvWhere "users" {[ "id" := VInt 7 ]}])
          ∧ _raw_data self = Some row7
          ∧ attributes self !! "id" = Some (VInt 7).
Proof.
  destruct (construct_by_id_uses_first_row
              (users (fixed_gateway [row7; row0] (OK (VInt 7)) (OK (VInt 1))))
              (VInt 7) (Some row0) "id" "users" users_schema [] row7 [row0]
              eq_refl eq_refl)
    as (self & Hinit & _ & Hraw & Hattrs).
  exists self. split; [exact Hinit|]. split; [exact Hraw | exact (Hattrs "id")].
Defined.

(** ** Retrieval, case by case *)

(** X12: only the [IndexError] of an empty fetch is softened.  Any other
    exception that the gateway's fetch raises reaches the caller of [get], of
    [exists], of [get_by] and of the constructor by identifier unchanged. *)
Theorem fetch_failure_propagates (cls : Class) (new : Constructor)
    (attribute column : string) (value X : val) (raw_data : option row)
    (primary_key table : string) (schema : gmap string string)
    (kw_db : option Gateway) (h : list event) (e : exc) :
  e ≠ IndexError →
  (gw_where (default (DB cls) kw_db) h (TABLE cls) {[ PRIMARY_KEY cls := X ]} = Raise e →
   get cls X kw_db h
     = (Raise e, logged h (EvWhere (TABLE cls) {[ PRIMARY_KEY cls := X ]}))
   ∧ exists_ cls X kw_db h
     = (Raise e, logged h (EvWhere (TABLE cls) {[ PRIMARY_KEY cls := X ]})))
  ∧ (SCHEMA cls !! attribute = Some column →
     gw_where (default (DB cls) kw_db) h (TABLE cls) {[ column := value ]} = Raise e →
     get_by cls new attribute value kw_db h
       = (Raise e, logged h (EvWhere (TABLE cls) {[ column := value ]})))
  ∧ (truthy X = true →
     gw_where (DB cls) h (TABLE cls) {[ PRIMARY_KEY cls := X ]} = Raise e →
     __init__ cls X raw_data primary_key table schema h
       = (Raise e, logged h (EvWhere (TABLE cls) {[ PRIMARY_KEY cls := X ]}))).
Proof.
  intros He.
  assert (∀ kw, gw_where (default (DB cls) kw) h (TABLE cls) {[ PRIMARY_KEY cls := X ]}
                  = Raise e →
                _get_query cls X kw h
                  = (Raise e, logged h (EvWhere (TABLE cls) {[ PRIMARY_KEY cls := X ]})))
    as Hquery.
  { intros kw Hgw. unfold _get_query, except_IndexError, db_where. simpl.
    unfold mbind, M_bind. rewrite Hgw. by destruct e. }
  split; [|split].
  - intros Hgw. unfold exists_, get, except_IndexError.
    rewrite (Hquery kw_db Hgw). by destruct e.
  - intros Hcol Hgw. unfold get_by. rewrite Hcol. simpl.
    unfold mbind, M_bind, except_IndexError, db_where. rewrite Hgw. by destruct e.
  - intros HX Hgw. unfold __init__, _construct_obj. simpl. rewrite HX.
    unfold _construct_obj_from_id. simpl. unfold mbind at 1, M_bind at 1.
    by rewrite (Hquery (Some (DB cls)) Hgw).
Qed.

Lemma fetch_failure_propagates_witness :
  get (users {| gw_where := λ _ _ _, Raise (GatewayError "connection lost");
                gw_select := λ _ _ _, OK [];
                gw_insert := λ _ _ _, OK (VInt 7);
                gw_update := λ _ _ _ _, OK (VInt 1);
                gw_delete := λ _ _ _, OK (VInt 1) |}) (VInt 7) None []
    = (Raise (GatewayError "connection lost"), [EvWhere "users" {[ "id" := VInt 7 ]}]).
Proof.
  apply (fetch_failure_propagates
           (users {| gw_where := λ _ _ _, Raise (GatewayError "connection lost");
                     gw_select := λ _ _ _, OK [];
                     gw_insert := λ _ _ _, OK (VInt 7);
                     gw_update := λ _ _ _ _, OK (VInt 1);
                     gw_delete := λ _ _ _, OK (VInt 1) |})
           (λ _ _, raise TypeError) "name" "name" VNone (VInt 7) None "id" "users"
           users_schema None [] (GatewayError "connection lost")).
  - discriminate.
  - reflexivity.
Defined.

(** X13: [exists] is [get]: the fetch inside [get] already turns the
    [IndexError] into [None], so the [except] clause of [exists] never runs
    and the two agree on every identifier, gateway and log. *)
Theorem exists_is_get (cls : Class) (obj_id : val) (kw_db : option Gateway)
    (h : list event) :
  exists_ cls obj_id kw_db h = get cls obj_id kw_db h.
Proof.
  unfold exists_, get, _get_query, except_IndexError, db_where. simpl.
  unfold mbind, M_bind.
  destruct (gw_where _ _ _ _) as [[|r rest]|[]]; reflexivity.
Qed.

(** X14: when the schema declares the attribute and the gateway finds rows,
    [get_by] hands the first row to the constructor of the class and returns
    what it builds; the further rows are ignored, and what the constructor
    raises, an [IndexError] included, reaches the caller. *)
Theorem get_by_constructs_first_row (cls : Class) (new : Constructor)
    (attribute column : string) (value : val) (kw_db : option Gateway)
    (h : list event) (r : row) (rest : list row) :
  SCHEMA cls !! attribute = Some column →
  gw_where (default (DB cls) kw_db) h (TABLE cls) {[ column := value ]} = OK (r :: rest) →
  get_by cls new attribute value kw_db h =
    match new VNone (Some r) (logged h (EvWhere (TABLE cls) {[ column := value ]})) with
    | (OK self, h') => (OK (Some self), h')
    | (Raise e, h') => (Raise e, h')
    end.
Proof.
  intros Hcol Hgw. unfold get_by. rewrite Hcol. simpl.
  unfold mbind, M_bind, except_IndexError, db_where. rewrite Hgw. simpl.
  by destruct (new VNone (Some r) _) as [[self|e] h'].
Qed.

Lemma get_by_constructs_first_row_witness :
  ∃ self, get_by (users (fixed_gateway [row7; row0] (OK (VInt 7)) (OK (VInt 1))))
            (User (fixed_gateway [row7; row0] (OK (VInt 7)) (OK (VInt 1))))
            "name" (VStr "Ada") None []
            = (OK (Some self), [EvWhere "users" {[ "name" := VStr "Ada" ]}])
          ∧ _raw_data self = Some row7.
Proof.
  eexists. split.
  - rewrite (get_by_constructs_first_row
               (users (fixed_gateway [row7; row0] (OK (VInt 7)) (OK (VInt 1))))
               (User (fixed_gateway [row7; row0] (OK (VInt 7)) (OK (VInt 1))))
               "name" "name" (VStr "Ada") None [] row7 [row0] eq_refl eq_refl).
    vm_compute. reflexivity.
  - reflexivity.
Defined.

Lemma map_M_forwarding (cls' : Class) (primary_key table : string)
    (schema : gmap string string) (rows : list row) (h : list event) :
  ∃ instances,
    map_M (λ r, construct (forwarding cls' primary_key table schema) (Some r)) rows h
      = (OK instances, h)
    ∧ Forall2 (λ (r : row) self,
         _raw_data self = Some r
         ∧ (r ≠ ∅ → ∀ key, attributes self !! key
                            = schema !! key ≫= (λ column, r !! column)))
        rows instances.
Proof.
  induction rows as [|r rows (instances & Hrest & Hall)].
  - exists []. split; [done|]. constructor.
  - cbn [map_M]. unfold mbind at 1, M_bind at 1. unfold construct at 1, forwarding at 1.
    destruct (decide (r = ∅)) as [->|Hr].
    + rewrite __init___by_defaults; [|done|by vm_compute].
      unfold mbind at 1, M_bind at 1. rewrite Hrest.
      eexists (_ :: instances). split; [done|]. by constructor.
    + rewrite __init___by_row by done.
      unfold mbind at 1, M_bind at 1. rewrite Hrest.
      eexists (_ :: instances). split; [done|]. constructor; [|done].
      split; [done|]. intros _ key. simpl.
      by rewrite (right_id_L ∅ (∪)), lookup_omap.
Qed.

(** X15: [get_all] selects the rows of the table, all columns unless [what]
    says otherwise, and with a constructor that forwards to [__init__] builds
    one instance per row, in the order of the gateway's answer, without a
    further gateway call; each instance keeps its row and, the row not being
    empty, has the fields the row gives. *)
Theorem get_all_one_instance_per_row (cls cls' : Class) (primary_key table : string)
    (schema : gmap string string) (kw_db : option Gateway) (kw_what : option string)
    (h : list event) (rows : list row) :
  gw_select (default (DB cls) kw_db) h (TABLE cls) (default "*" kw_what) = OK rows →
  ∃ instances,
    get_all cls (forwarding cls' primary_key table schema) kw_db kw_what h
      = (OK instances, logged h (EvSelect (TABLE cls) (default "*" kw_what)))
    ∧ Forall2 (λ (r : row) self,
         _raw_data self = Some r
         ∧ (r ≠ ∅ → ∀ key, attributes self !! key
                            = schema !! key ≫= (λ column, r !! column)))
        rows instances.
Proof.
  intros Hgw. unfold get_all, _get_all_query, db_select.
  unfold mbind at 1, M_bind at 1. rewrite Hgw.
  apply map_M_forwarding.
Qed.

Lemma get_all_one_instance_per_row_witness :
  ∃ first second,
    get_all (users (fixed_gateway [row7; row0] (OK (VInt 7)) (OK (VInt 1))))
            (forwarding (users (fixed_gateway [row7; row0] (OK (VInt 7)) (OK (VInt 1))))
               "id" "users" users_schema) None None []
      = (OK [first; second], [EvSelect "users" "*"])
    ∧ _raw_data first = Some row7
    ∧ _raw_data second = Some row0.
Proof.
  destruct (get_all_one_instance_per_row
              (users (fixed_gateway [row7; row0] (OK (VInt 7)) (OK (VInt 1))))
              (users (fixed_gateway [row7; row0] (OK (VInt 7)) (OK (VInt 1))))
              "id" "users" users_schema None None [] [row7; row0] eq_refl)
    as (instances & Hall & Hrows).
  destruct instances as [|first [|second [|third rest]]];
    try (exfalso; apply Forall2_length in Hrows; discriminate Hrows).
  exists first, second. split; [exact Hall|].
  apply Forall2_cons_1 in Hrows as [[Hfirst _] Hrows].
  apply Forall2_cons_1 in Hrows as [[Hsecond _] _].
  split; [exact Hfirst | exact Hsecond].
Defined.

(** ** Identifiers across operations *)

Lemma insert_success_inv (cls : Class) (self self' : Instance) (now : val)
    (h h' : list event) (ret : val) :
  truthy (getattr self (primary_key self) VNone) = false →
  insert cls self now h = (OK (ret, self'), h') →
  ∃ attrs, _clean_keys self true false now = OK attrs
           ∧ self' = setattr self (primary_key self) ret
           ∧ h' = (h ++ [EvTransaction; EvInsert (table self) attrs; EvCommit])%list.
Proof.
  intros Hid Hins.
  destruct (_clean_keys self true false now) as [attrs|e] eqn:Hattrs.
  2: { by rewrite (insert_projection_raises _ _ _ _ e) in Hins. }
  rewrite (insert_no_identifier _ _ _ _ attrs) in Hins by done.
  destruct (gw_insert _ _ _ _); [|done].
  injection Hins as -> <- <-. by exists attrs.
Qed.

(** X16: [is_databased] returns the identifier when the primary-key
    attribute is truthy and [False] otherwise, and it is truthy exactly when
    [insert] refuses the instance, returning [False] without a gateway
    call. *)
Theorem is_databased_iff_insert_refuses (cls : Class) (self : Instance) (now : val)
    (h : list event) :
  is_databased self
    = (if truthy (getattr self (primary_key self) VNone)
       then getattr self (primary_key self) VNone else VBool false)
  ∧ (truthy (is_databased self) = true
     ↔ insert cls self now h = (OK (VBool false, self), h)).
Proof.
  assert (is_databased self
          = if truthy (getattr self (primary_key self) VNone)
            then getattr self (primary_key self) VNone else VBool false) as Hdb.
  { unfold is_databased, getattr.
    destruct (attributes self !! primary_key self) as [v|]; simpl; [|done].
    by destruct (truthy v). }
  split; [done|]. rewrite Hdb.
  destruct (truthy (getattr self (primary_key self) VNone)) eqn:Hid.
  - split; [intros _; by apply insert_has_identifier | done].
  - split; [done|]. intros Hins.
    apply insert_success_inv in Hins as (attrs & _ & _ & Hlog); [|done].
    apply (f_equal length) in Hlog. rewrite length_app in Hlog. simpl in Hlog. lia.
Qed.

(** X17: [insert] stores the new identifier in the primary-key attribute
    and leaves the slot [obj_id] as it was, and [delete] addresses the row by
    that slot: after a successful [insert], [delete] asks the gateway for the
    row whose key equals the old slot, whatever identifier was assigned. *)
Theorem delete_after_insert_uses_old_slot (cls : Class) (self self' : Instance)
    (now : val) (h h' : list event) (ret : val) :
  truthy (getattr self (primary_key self) VNone) = false →
  insert cls self now h = (OK (ret, self'), h') →
  obj_id self' = obj_id self
  ∧ delete_ cls self' h' =
      (gw_delete (DB cls) h' (table self)
         (primary_key self +:+ "=" +:+ py_str (obj_id self)),
       logged h'
         (EvDelete (table self) (primary_key self +:+ "=" +:+ py_str (obj_id self)))).
Proof.
  intros Hid Hins. apply insert_success_inv in Hins as (attrs & _ & -> & _); [|done].
  done.
Qed.

Lemma delete_after_insert_uses_old_slot_witness :
  truthy (getattr ada (primary_key ada) VNone) = false
  ∧ delete_ (users (fixed_gateway [] (OK (VInt 7)) (OK (VInt 1))))
      (setattr ada "id" (VInt 7))
      [EvTransaction;
       EvInsert "users" {[ "name" := VStr "Ada";
                           "created_at" := VStr "2014-03-01 12:00:00.000000" ]};
       EvCommit]
    = (OK (VInt 1),
       [EvTransaction;
        EvInsert "users" {[ "name" := VStr "Ada";
                            "created_at" := VStr "2014-03-01 12:00:00.000000" ]};
        EvCommit;
        EvDelete "users" "id=None"]).
Proof.
  split; [reflexivity|].
  destruct (delete_after_insert_uses_old_slot
              (users (fixed_gateway [] (OK (VInt 7)) (OK (VInt 1))))
              ada (setattr ada "id" (VInt 7)) noon []
              [EvTransaction;
               EvInsert "users" {[ "name" := VStr "Ada";
                                   "created_at" := VStr "2014-03-01 12:00:00.000000" ]};
               EvCommit]
              (VInt 7) eq_refl) as [_ Hdelete].
  - vm_compute. reflexivity.
  - exact Hdelete.
Defined.

(** X18: after a successful [insert] that was given a truthy identifier, an
    [update] on the instance goes to the gateway, inside a transaction, with
    a clause that addresses the row by that identifier. *)
Theorem update_after_insert_addresses_new_identifier (cls : Class)
    (self self' : Instance) (now now' : val) (h h' : list event) (ret : val) :
  truthy (getattr self (primary_key self) VNone) = false →
  insert cls self now h = (OK (ret, self'), h') →
  truthy ret = true →
  ∃ attrs out closing,
    _clean_keys self' true false now' = OK attrs
    ∧ update cls self' now' h' =
        (out,
         (h' ++ [EvTransaction;
                 EvUpdate (table self) (primary_key self +:+ "=" +:+ py_str ret) attrs;
                 closing])%list).
Proof.
  intros Hid Hins Hret.
  apply insert_success_inv in Hins as (attrs0 & Hattrs0 & -> & _); [|done].
  set (self' := setattr self (primary_key self) ret).
  assert (getattr self' (primary_key self') VNone = ret) as Hget.
  { unfold getattr, self', setattr. simpl. by rewrite lookup_insert_eq. }
  assert (∃ attrs, _clean_keys self' true false now' = OK attrs) as [attrs Hattrs].
  { rewrite _clean_keys_unsafe in Hattrs0 |- *.
    change (schema self') with (schema self).
    destruct (schema self !! "created"), (schema self !! "modified"); by eauto. }
  exists attrs.
  pose proof (update_has_identifier cls self' now' h' attrs) as Hupdate.
  rewrite Hget in Hupdate. cbn zeta in Hupdate. rewrite Hupdate by done.
  change (table self') with (table self). change (primary_key self') with (primary_key self).
  destruct (gw_update _ _ _ _ _) as [updated|e].
  - by eexists _, EvCommit.
  - by eexists _, EvRollback.
Qed.

Lemma update_after_insert_addresses_new_identifier_witness :
  ∃ attrs out closing,
    _clean_keys (setattr ada "id" (VInt 7)) true false noon = OK attrs
    ∧ update (users (fixed_gateway [] (OK (VInt 7)) (OK (VInt 1))))
        (setattr ada "id" (VInt 7)) noon
        [EvTransaction;
         EvInsert "users" {[ "name" := VStr "Ada";
                             "created_at" := VStr "2014-03-01 12:00:00.000000" ]};
         EvCommit]
      = (out,
         [EvTransaction;
          EvInsert "users" {[ "name" := VStr "Ada";
                              "created_at" := VStr "2014-03-01 12:00:00.000000" ]};
          EvCommit;
          EvTransaction; EvUpdate "users" "id=7" attrs; closing]).
Proof.
  apply (update_after_insert_addresses_new_identifier
           (users (fixed_gateway [] (OK (VInt 7)) (OK (VInt 1))))
           ada (setattr ada "id" (VInt 7)) noon noon []
           [EvTransaction;
            EvInsert "users" {[ "name" := VStr "Ada";
                                "created_at" := VStr "2014-03-01 12:00:00.000000" ]};
            EvCommit]
           (VInt 7)).
  - reflexivity.
  - vm_compute. reflexivity.
  - reflexivity.
Defined.

(** ** The two serialisations *)

(** X19: [json_serializable] returns whenever the projection under it does,
    with the same keys; an entry whose value is a [Decimal] or a [datetime]
    is replaced by its text and every other entry is passed on as it is, so
    the result never holds a [Decimal] or a [datetime]. *)
Theorem json_serializable_converts (self : Instance) (now : val) (proj : row) :
  _clean_keys self false false now = OK proj →
  ∃ attrs, json_serializable self now = OK attrs
           ∧ (∀ k, attrs !! k = (λ v, (convert_attr2json k v).2) <$> proj !! k)
           ∧ (∀ k v, attrs !! k = Some v →
                match v with
                | VDecimal _ _ | VDatetime _ => False
                | _ => proj !! k = Some v
                       ∨ ∃ text, v = VStr text
                                 ∧ (proj !! k = Some (VDatetime text)
                                    ∨ ∃ zero, proj !! k = Some (VDecimal zero text))
                end).
Proof.
  intros Hproj. rewrite json_serializable_fmap, Hproj.
  eexists. split; [done|].
  assert (∀ k, (json_value <$> proj) !! k
               = (λ v, (convert_attr2json k v).2) <$> proj !! k) as Hlookup.
  { intros k. rewrite lookup_fmap. destruct (proj !! k) as [v|]; [|done].
    simpl. unfold json_value. by destruct v. }
  split; [done|]. intros k v. rewrite Hlookup.
  destruct (proj !! k) as [w|]; [|done]. simpl. intros [= <-].
  destruct w as [| | | |zero text|text]; simpl; [by left..| |].
  - right. exists text. split; [done|]. right. by exists zero.
  - right. exists text. split; [done|]. by left.
Qed.

Lemma json_serializable_converts_witness :
  ∃ attrs,
    json_serializable
      (instance_of users_schema
         {[ "id" := VInt 7; "name" := VStr "Ada";
            "created_at" := VDatetime "2014-02-28 09:30:00" ]})
      noon = OK attrs
    ∧ attrs !! "created" = Some (VStr "2014-02-28 09:30:00")
    ∧ attrs !! "id" = Some (VInt 7).
Proof.
  destruct (json_serializable_converts
              (instance_of users_schema
                 {[ "id" := VInt 7; "name" := VStr "Ada";
                    "created_at" := VDatetime "2014-02-28 09:30:00" ]})
              noon
              {[ "id" := VInt 7; "name" := VStr "Ada";
                 "created" := VDatetime "2014-02-28 09:30:00";
                 "created_at" := VStr "2014-03-01 12:00:00.000000" ]})
    as (attrs & Hjson & Hlookup & _).
  - vm_compute. reflexivity.
  - exists attrs. split; [exact Hjson|].
    split; [exact (Hlookup "created") | exact (Hlookup "id")].
Defined.

(** X20: every entry of [_json_serializable] belongs to a field of the
    schema whose attribute, read under the name of the column, is truthy, and
    holds the text of that attribute, numbers included; with [safe] the key
    is neither [password] nor [salt]. *)
Theorem _json_serializable_entries (self : Instance) (safe : bool) (k : string) (v : val) :
  _json_serializable self safe !! k = Some v →
  ∃ column, schema self !! k = Some column
            ∧ truthy (getattr self column VNone) = true
            ∧ v = VStr (py_str (getattr self column VNone))
            ∧ (safe = true → k ≠ "password" ∧ k ≠ "salt").
Proof.
  rewrite json_serializable_lookup.
  destruct (schema self !! k) as [column|]; [|done]. simpl. unfold rendered.
  destruct (truthy (getattr self column VNone)) eqn:Htrue; [|done]. simpl.
  destruct safe; simpl.
  - destruct (String.eqb k "password") eqn:Hp; [done|].
    destruct (String.eqb k "salt") eqn:Hs; [done|]. simpl. intros [= <-].
    exists column. repeat split; try done.
    + intros ->. by rewrite String.eqb_refl in Hp.
    + intros ->. by rewrite String.eqb_refl in Hs.
  - intros [= <-]. exists column. by repeat split.
Qed.

Lemma _json_serializable_entries_witness :
  _json_serializable ada7 true !! "id" = Some (VStr "7")
  ∧ ∃ column, schema ada7 !! "id" = Some column
              ∧ truthy (getattr ada7 column VNone) = true
              ∧ VStr "7" = VStr (py_str (getattr ada7 column VNone))
              ∧ (true = true → "id" ≠ "password" ∧ "id" ≠ "salt").
Proof.
  assert (_json_serializable ada7 true !! "id" = Some (VStr "7")) as Hentry.
  { vm_compute. reflexivity. }
  split; [exact Hentry|].
  exact (_json_serializable_entries ada7 true "id" (VStr "7") Hentry).
Defined.

(** ** From a row to the projection, and the unbound timestamp *)

Lemma _clean_keys_unsafe_returns (self : Instance) (db_operation : bool) (now : val) :
  is_Some (schema self !! "created") ∨ schema self !! "modified" = None →
  ∃ attrs, _clean_keys self db_operation false now = OK attrs.
Proof.
  intros Hts. rewrite _clean_keys_unsafe.
  destruct Hts as [[c ->]| ->]; [by eauto|].
  destruct (schema self !! "created"); by eauto.
Qed.

(** X21: a field stored under its own name makes the round trip: construct
    the instance from a row whose cell for the field is truthy, and the
    projection holds that cell under the field, provided no timestamp is
    written to a column of that name; [_json_serializable] holds its text. *)
Theorem row_to_projection_round_trip (cls : Class) (X : val) (r : row)
    (pk tbl key : string) (sch : gmap string string) (v now : val) (h : list event) :
  truthy X = false →
  sch !! key = Some key →
  r !! key = Some v →
  truthy v = true →
  sch !! "created" ≠ Some key →
  sch !! "modified" ≠ Some key →
  (is_Some (sch !! "created") ∨ sch !! "modified" = None) →
  ∃ self attrs,
    __init__ cls X (Some r) pk tbl sch h = (OK self, h)
    ∧ _clean_keys self false false now = OK attrs
    ∧ attrs !! key = Some v
    ∧ _json_serializable self false !! key = Some (VStr (py_str v)).
Proof.
  intros HX Hkey Hcell Hv Hc Hm Hts.
  rewrite __init___by_row; [|done|by intros ->].
  set (self := {| primary_key := pk; schema := sch; table := tbl;
                  obj_id := default VNone (r !! pk); _raw_data := Some r;
                  attributes := omap (λ column, r !! column) sch ∪ ∅ |}).
  assert (getattr self key VNone = v) as Hget.
  { unfold getattr, self. simpl.
    by rewrite lookup_union, lookup_omap, Hkey, lookup_empty; simpl; rewrite Hcell. }
  destruct (_clean_keys_unsafe_returns self false now Hts) as [attrs Hattrs].
  exists self, attrs. split; [done|]. split; [done|]. split.
  - rewrite (_clean_keys_unsafe_lookup _ _ _ _ _ Hattrs).
    change (schema self) with sch. rewrite !decide_False by done.
    rewrite projected_lookup. change (schema self) with sch. simpl.
    rewrite Hkey. simpl. unfold kept. by rewrite Hget, Hv.
  - rewrite json_serializable_lookup. change (schema self) with sch.
    rewrite Hkey. simpl. unfold rendered. by rewrite Hget, Hv.
Qed.

Lemma row_to_projection_round_trip_witness :
  ∃ self attrs,
    __init__ (users (fixed_gateway [] (OK (VInt 7)) (OK (VInt 1))))
      VNone (Some row7) "id" "users" users_schema [] = (OK self, [])
    ∧ _clean_keys self false false noon = OK attrs
    ∧ attrs !! "name" = Some (VStr "Ada")
    ∧ _json_serializable self false !! "name" = Some (VStr "Ada").
Proof.
  apply (row_to_projection_round_trip
           (users (fixed_gateway [] (OK (VInt 7)) (OK (VInt 1))))
           VNone row7 "id" "users" "name" users_schema (VStr "Ada") noon []).
  - reflexivity.
  - reflexivity.
  - reflexivity.
  - reflexivity.
  - by vm_compute.
  - by vm_compute.
  - left. exists "created_at". reflexivity.
Defined.

(** X22: when the schema declares [modified] and not [created], every
    operation that projects stops on the unbound [timestamp] before it
    reaches the gateway: [json_serializable] raises, [insert] on an instance
    without identifier raises, [update] on an instance with one raises, and
    the two writes leave the log of gateway calls as it was. *)
Theorem writes_stop_on_unbound_timestamp (cls : Class) (self : Instance) (now : val)
    (h : list event) :
  schema self !! "created" = None →
  is_Some (schema self !! "modified") →
  json_serializable self now = Raise (UnboundLocalError "timestamp")
  ∧ (truthy (getattr self (primary_key self) VNone) = false →
     insert cls self now h = (Raise (UnboundLocalError "timestamp"), h))
  ∧ (truthy (getattr self (primary_key self) VNone) = true →
     update cls self now h = (Raise (UnboundLocalError "timestamp"), h)).
Proof.
  intros Hc [m Hm].
  assert (∀ db_operation,
            _clean_keys self db_operation false now = Raise (UnboundLocalError "timestamp"))
    as Hraise.
  { intros db_operation. by rewrite _clean_keys_unsafe, Hc, Hm. }
  split; [|split].
  - by rewrite json_serializable_fmap, Hraise.
  - intros Hid. by apply insert_projection_raises.
  - intros Hid. unfold update. simpl. rewrite Hid. simpl.
    unfold mbind, M_bind, lift. by rewrite Hraise.
Qed.

Lemma writes_stop_on_unbound_timestamp_witness :
  json_serializable login noon = Raise (UnboundLocalError "timestamp")
  ∧ update (users (fixed_gateway [] (OK (VInt 7)) (OK (VInt 1)))) login noon []
    = (Raise (UnboundLocalError "timestamp"), []).
Proof.
  destruct (writes_stop_on_unbound_timestamp
              (users (fixed_gateway [] (OK (VInt 7)) (OK (VInt 1)))) login noon [])
    as (Hjson & _ & Hupdate).
  - reflexivity.
  - exists "modified". reflexivity.
  - split; [exact Hjson | exact (Hupdate eq_refl)].
Defined.
